(** * EXIF field-of-view estimation: the computation core

    A shallow embedding of [src/compute.js] (the resolver of the 35 mm
    equivalent focal length, the orientation adjuster, the FOV and pixel
    focal-length calculators, the close-focus corrector) and of [analyze]
    from the command-line entry point, with the properties the specification
    states about them.

    Numbers.  JavaScript numbers are IEEE-754 doubles.  The development
    idealises them as real numbers: arithmetic is exact, and NaN and the
    infinities are outside the model.  Every division the resolver and the
    corrector perform is guarded by the code (the divisor passed a truthiness
    test or a [d <= 0] test), so no division by zero is ever evaluated there;
    [computeFov] divides by [2 * f35mm] unguarded, and what is stated about
    it is stated for a focal length other than 0.

    Doubles.  Exact arithmetic has no underflow: a product of two numbers
    other than 0 is never 0.  Where that matters (the sign of what the
    resolver returns) the resolver is embedded a second time, in module
    [Binary64], over the kernel's binary64 numbers, which are the doubles of
    JavaScript with their rounding, signed zeros, infinities and NaN.

    Values.  A metadata field holds [null] or a number: the metadata reader
    ([parseNum] in [src/exif.js]) turns every missing or unparseable tag into
    [null], so [undefined] never reaches the core through [analyze]; inside
    [getF35mm] a missing property ([undefined]) takes the same branches as
    [null], which [JNull] stands for as well. *)

From Stdlib Require Import Floats.
From Stdlib Require Import Reals Lra Lia ZArith Bool List Ascii String.
Import ListNotations.

Open Scope R_scope.

(** ** JavaScript values and coercions *)

Inductive value : Type :=
| JNull
| JNum (x : R).

(** [ToBoolean]: [null] and [0] are falsy, every other number is truthy. *)
Definition truthy (v : value) : bool :=
  match v with
  | JNull => false
  | JNum x => if Req_dec_T x 0 then false else true
  end.

(** [ToNumber]: [null] coerces to [0]. *)
Definition toNumber (v : value) : R :=
  match v with
  | JNull => 0
  | JNum x => x
  end.

Definition Rleb (x y : R) : bool := if Rle_dec x y then true else false.
Definition Reqb (x y : R) : bool := if Req_dec_T x y then true else false.

(** Strict equality [v === n] against a number literal. *)
Definition strictEqNum (v : value) (n : R) : bool :=
  match v with
  | JNull => false
  | JNum x => Reqb x n
  end.

(** What a call does: it returns a value or throws an [Error] with a message. *)
Inductive outcome (A : Type) : Type :=
| Returned (a : A)
| Thrown (msg : string).

Arguments Returned {A} a.
Arguments Thrown {A} msg.

Definition outcome_map {A B : Type} (f : A -> B) (o : outcome A) : outcome B :=
  match o with
  | Returned a => Returned (f a)
  | Thrown msg => Thrown msg
  end.

Definition throws {A : Type} (o : outcome A) : Prop :=
  exists msg, o = Thrown msg.

(** ** The metadata record delivered by the metadata reader *)

Record MetadataRecord : Type := mkMeta {
  width : value;
  height : value;
  orientation : value;
  focalLength : value;
  focalLengthIn35mm : value;
  scaleFactor35efl : value;
  focalPlaneXRes : value;
  focalPlaneYRes : value;
  focalPlaneUnit : value;
  digitalZoomRatio : value;
  focusDistance : value
}.

(** ** Constants *)

Definition SENSOR_WIDTH_35MM : R := 36.
Definition SENSOR_HEIGHT_35MM : R := 24.
Definition SENSOR_DIAG_35MM : R :=
  sqrt (SENSOR_WIDTH_35MM ^ 2 + SENSOR_HEIGHT_35MM ^ 2).

(** The unit table, keyed by the resolution-unit code; code 1 is left out. *)
Definition FOCAL_PLANE_UNIT_MM : list (R * R) :=
  [ (2, 25.4); (3, 10); (4, 1); (5, 0.001) ].

(** Property lookup [table[key]]: [None] is [undefined]. *)
Fixpoint table_get (table : list (R * R)) (key : R) : option R :=
  match table with
  | [] => None
  | (k, v) :: rest => if Reqb key k then Some v else table_get rest key
  end.

(** [FOCAL_PLANE_UNIT_MM[unitTag]]; [null] is no key of the table. *)
Definition unit_entry (unitTag : value) : option R :=
  match unitTag with
  | JNull => None
  | JNum u => table_get FOCAL_PLANE_UNIT_MM u
  end.

(** [a ?? b] on table entries. *)
Definition nullish {A : Type} (a b : option A) : option A :=
  match a with
  | Some x => Some x
  | None => b
  end.

(** [focalPlaneUnitMul]: [None] is the [null] the source returns. *)
Definition focalPlaneUnitMul (unitTag : value) : option R :=
  if strictEqNum unitTag 1 then None
  else nullish (unit_entry unitTag) (unit_entry (JNum 2)).

(** ** Helpers *)

Definition rad2deg (r : R) : R := (r * 180) / PI.

(** [closeFocusCorrectionFactor(focalLengthMm, focusDistM)].  Both arguments
    are fields of the metadata record, so a missing one is [null], which the
    subtraction and the division coerce to [0]. *)
Definition closeFocusCorrectionFactor (focalLengthMm focusDistM : value) : R :=
  if negb (truthy focusDistM) || Rleb (toNumber focusDistM) 0 then 1
  else
    let d := 1000 * toNumber focusDistM - toNumber focalLengthMm in
    if Rleb d 0 then 1
    else 1 + toNumber focalLengthMm / d.

(** The object [{ width, height }]. *)
Record Dimensions : Type := mkDims {
  dim_width : value;
  dim_height : value
}.

Definition isRotatedCode (orientation : value) : bool :=
  Rleb 5 (toNumber orientation) && Rleb (toNumber orientation) 8.

(** [adjustForOrientation(width, height, orientation)] *)
Definition adjustForOrientation (w h o : value) : Dimensions :=
  let rotated := isRotatedCode o in
  if rotated then mkDims h w else mkDims w h.

(** ** Sensor dimensions from the focal-plane tags *)

(** The object [{ sensorWidth, sensorHeight }]; a field may be [null]. *)
Record SensorDimensions : Type := mkSensor {
  sensorWidth : value;
  sensorHeight : value
}.

Definition isNull (v : value) : bool :=
  match v with
  | JNull => true
  | JNum _ => false
  end.

(** [computeActualSensorDimensions(meta)]; [None] is [null]. *)
Definition computeActualSensorDimensions (meta : MetadataRecord)
  : option SensorDimensions :=
  match focalPlaneUnitMul (focalPlaneUnit meta) with
  | None => None
  | Some unitMul =>
      let sw :=
        if truthy (focalPlaneXRes meta) && truthy (width meta)
        then JNum ((toNumber (width meta) / toNumber (focalPlaneXRes meta)) * unitMul)
        else JNull in
      let sh :=
        if truthy (focalPlaneYRes meta) && truthy (height meta)
        then JNum ((toNumber (height meta) / toNumber (focalPlaneYRes meta)) * unitMul)
        else JNull in
      if isNull sw && isNull sh then None
      else Some (mkSensor sw sh)
  end.

(** ** Resolution of the 35 mm equivalent focal length *)

(** The two updates of the local [cropFactor] ([None] is [null]). *)
Definition cropFactorX (sensor : SensorDimensions) : option R :=
  if truthy (sensorWidth sensor)
  then Some (SENSOR_WIDTH_35MM / toNumber (sensorWidth sensor))
  else None.

Definition cropFactorXY (sensor : SensorDimensions) : option R :=
  let cropFactor := cropFactorX sensor in
  if truthy (sensorHeight sensor) then
    let cropFactorY := SENSOR_HEIGHT_35MM / toNumber (sensorHeight sensor) in
    match cropFactor with
    | None => Some cropFactorY
    | Some c => Some ((c + cropFactorY) / 2)
    end
  else cropFactor.

(** [f35mmFromFocalPlane(meta)]; [None] is [null]. *)
Definition f35mmFromFocalPlane (meta : MetadataRecord) : option R :=
  if negb (truthy (focalLength meta)) then None
  else
    match computeActualSensorDimensions meta with
    | None => None
    | Some sensor =>
        match cropFactorXY sensor with
        | None => None
        | Some cropFactor => Some (toNumber (focalLength meta) * cropFactor)
        end
    end.

Definition resolutionErrorMessage : string :=
  "Cannot determine 35 mm-equivalent focal length. " ++
  "The image must contain either FocalLengthIn35mmFormat, " ++
  "FocalLength + ScaleFactor35efl, or FocalLength + FocalPlaneResolution tags. " ++
  "FocalPlaneResolutionUnit must not be 1 (no-unit).".

(** [getF35mm(meta)] *)
Definition getF35mm (meta : MetadataRecord) : outcome R :=
  if truthy (focalLengthIn35mm meta) then
    Returned (toNumber (focalLengthIn35mm meta))
  else if truthy (focalLength meta) && truthy (scaleFactor35efl meta) then
    Returned (toNumber (focalLength meta) * toNumber (scaleFactor35efl meta))
  else
    match f35mmFromFocalPlane meta with
    | Some fromPlane => Returned fromPlane
    | None => Thrown resolutionErrorMessage
    end.

(** ** FOV and pixel focal length *)

Record Fov : Type := mkFov {
  hfov : R;
  vfov : R;
  dfov : R
}.

(** [computeFov(f35mm)] *)
Definition computeFov (f35mm : R) : Fov :=
  mkFov (rad2deg (2 * atan (SENSOR_WIDTH_35MM / (2 * f35mm))))
        (rad2deg (2 * atan (SENSOR_HEIGHT_35MM / (2 * f35mm))))
        (rad2deg (2 * atan (SENSOR_DIAG_35MM / (2 * f35mm)))).

(** [computeDiagonalPixelFocalLength(f35mm, width, height)] *)
Definition computeDiagonalPixelFocalLength (f35mm : R) (w h : value) : R :=
  let diagPixels := sqrt (toNumber w ^ 2 + toNumber h ^ 2) in
  (f35mm / SENSOR_DIAG_35MM) * diagPixels.

(** ** The analysis of one image *)

Record ResultRecord : Type := mkResult {
  res_file : string;
  res_rawWidth : value;
  res_rawHeight : value;
  res_visualWidth : value;
  res_visualHeight : value;
  res_orientation : value;
  res_focalLength : value;
  res_focalLengthIn35mm : R;
  res_scaleFactor35efl : value;
  res_fPixelDiagonal : R;
  res_hfov : R;
  res_vfov : R;
  res_dfov : R;
  res_focusDistance : value
}.

(** [analyze(filePath, { applyCloseFocusCorrection })], from the point where
    the metadata reader has delivered [meta] for [filePath] (the reader is an
    external collaborator; when it throws, none of the code below runs). *)
Definition analyze (filePath : string) (meta : MetadataRecord)
                   (applyCloseFocusCorrection : bool) : outcome ResultRecord :=
  match getF35mm meta with
  | Thrown msg => Thrown msg
  | Returned f35mm =>
      let rawWidth := width meta in
      let rawHeight := height meta in
      let visual := adjustForOrientation rawWidth rawHeight (orientation meta) in
      let isRotated := isRotatedCode (orientation meta) in
      let corr :=
        if applyCloseFocusCorrection
        then closeFocusCorrectionFactor (focalLength meta) (focusDistance meta)
        else 1 in
      let fov := computeFov (f35mm * corr) in
      let hv := if isRotated then (vfov fov, hfov fov) else (hfov fov, vfov fov) in
      let fPixel := computeDiagonalPixelFocalLength f35mm rawWidth rawHeight in
      Returned (mkResult filePath rawWidth rawHeight
                         (dim_width visual) (dim_height visual)
                         (orientation meta) (focalLength meta) f35mm
                         (scaleFactor35efl meta) fPixel
                         (fst hv) (snd hv) (dfov fov)
                         (focusDistance meta))
  end.

(** ** Records used as concrete inputs *)

(** A record that carries only the pixel dimensions and the orientation. *)
Definition bareRecord : MetadataRecord :=
  mkMeta (JNum 6000) (JNum 4000) (JNum 1)
         JNull JNull JNull JNull JNull JNull JNull JNull.

Definition withFocalLength (v : value) (m : MetadataRecord) : MetadataRecord :=
  mkMeta (width m) (height m) (orientation m) v (focalLengthIn35mm m)
         (scaleFactor35efl m) (focalPlaneXRes m) (focalPlaneYRes m)
         (focalPlaneUnit m) (digitalZoomRatio m) (focusDistance m).

Definition withFocalLengthIn35mm (v : value) (m : MetadataRecord) : MetadataRecord :=
  mkMeta (width m) (height m) (orientation m) (focalLength m) v
         (scaleFactor35efl m) (focalPlaneXRes m) (focalPlaneYRes m)
         (focalPlaneUnit m) (digitalZoomRatio m) (focusDistance m).

Definition withScaleFactor35efl (v : value) (m : MetadataRecord) : MetadataRecord :=
  mkMeta (width m) (height m) (orientation m) (focalLength m)
         (focalLengthIn35mm m) v (focalPlaneXRes m) (focalPlaneYRes m)
         (focalPlaneUnit m) (digitalZoomRatio m) (focusDistance m).

Definition withFocalPlane (xres yres unit : value) (m : MetadataRecord)
  : MetadataRecord :=
  mkMeta (width m) (height m) (orientation m) (focalLength m)
         (focalLengthIn35mm m) (scaleFactor35efl m) xres yres unit
         (digitalZoomRatio m) (focusDistance m).

Definition withOrientation (v : value) (m : MetadataRecord) : MetadataRecord :=
  mkMeta (width m) (height m) v (focalLength m)
         (focalLengthIn35mm m) (scaleFactor35efl m) (focalPlaneXRes m)
         (focalPlaneYRes m) (focalPlaneUnit m) (digitalZoomRatio m)
         (focusDistance m).

Definition withFocusDistance (v : value) (m : MetadataRecord) : MetadataRecord :=
  mkMeta (width m) (height m) (orientation m) (focalLength m)
         (focalLengthIn35mm m) (scaleFactor35efl m) (focalPlaneXRes m)
         (focalPlaneYRes m) (focalPlaneUnit m) (digitalZoomRatio m) v.

(** Direct tag 0 ("unknown" in EXIF) next to a usable focal length and scale
    factor. *)
Definition zeroTagRecord : MetadataRecord :=
  withFocalLengthIn35mm (JNum 0)
    (withFocalLength (JNum 50) (withScaleFactor35efl (JNum 2) bareRecord)).

(** Direct tag 90 next to a product 50 * 2 = 100 that disagrees with it. *)
Definition disagreeingRecord : MetadataRecord :=
  withFocalLengthIn35mm (JNum 90)
    (withFocalLength (JNum 50) (withScaleFactor35efl (JNum 2) bareRecord)).

(** Focal-plane tags in millimetres: 6000 px at 250 px/mm is a 24 mm wide
    sensor, 4000 px at 250 px/mm a 16 mm high one. *)
Definition focalPlaneRecord : MetadataRecord :=
  withFocalLength (JNum 50)
    (withFocalPlane (JNum 250) (JNum 250) (JNum 4) bareRecord).

(** The same focal-plane tags along the X axis only, with focal length 0. *)
Definition zeroFocalLengthRecord : MetadataRecord :=
  withFocalLength (JNum 0)
    (withFocalPlane (JNum 250) JNull (JNum 4) bareRecord).

(** Direct tag 0 and nothing else. *)
Definition onlyZeroTagRecord : MetadataRecord :=
  withFocalLengthIn35mm (JNum 0) bareRecord.

(** A negative direct tag. *)
Definition negativeTagRecord : MetadataRecord :=
  withFocalLengthIn35mm (JNum (-50)) bareRecord.

(** Focal-plane tags whose Y resolution is negative: the two crop factors
    are 1.5 and -1.5. *)
Definition cancellingAxesRecord : MetadataRecord :=
  withFocalLength (JNum 50)
    (withFocalPlane (JNum 250) (JNum (-250)) (JNum 4) bareRecord).

(** Direct tag only, no focal length, subject two metres away. *)
Definition directTagCloseRecord : MetadataRecord :=
  withFocusDistance (JNum 2) (withFocalLengthIn35mm (JNum 90) bareRecord).

(** ** The specification's reading of "present"

    The specification speaks of a field being present or absent.  A field is
    present when it holds a number (zero included), absent when it is [null]. *)

Definition present (v : value) : bool := negb (isNull v).

(** ** The specification's wording of the resolver, for comparison

    These definitions follow the specification, not the source.  They take
    the test that decides whether a field counts as available as a parameter
    [avail], so that the same wording can be read with [present] (the field
    holds a number) and with [truthy] (the test the source applies). *)

(** The unit multiplier by resolution-unit code. *)
Definition specUnitMultiplier (unit : value) : option R :=
  match unit with
  | JNull => Some 25.4
  | JNum u =>
      if Reqb u 1 then None
      else if Reqb u 2 then Some 25.4
      else if Reqb u 3 then Some 10
      else if Reqb u 4 then Some 1
      else if Reqb u 5 then Some 0.001
      else Some 25.4
  end.

(** An axis resolves when its pixel dimension and its resolution are both
    available. *)
Definition specAxisResolves (avail : value -> bool) (pixels resolution : value)
  : bool :=
  avail resolution && avail pixels.

(** Actual sensor dimension along one axis. *)
Definition specSensorDimension (pixels resolution : value) (mul : R) : R :=
  (toNumber pixels / toNumber resolution) * mul.

(** The derivation for a record whose [focalLength] is available. *)
Definition specFocalPlaneDerivation (avail : value -> bool) (m : MetadataRecord)
  : option R :=
  match specUnitMultiplier (focalPlaneUnit m) with
  | None => None
  | Some mul =>
      let cropX := 36 / specSensorDimension (width m) (focalPlaneXRes m) mul in
      let cropY := 24 / specSensorDimension (height m) (focalPlaneYRes m) mul in
      match specAxisResolves avail (width m) (focalPlaneXRes m),
            specAxisResolves avail (height m) (focalPlaneYRes m) with
      | true, true => Some (toNumber (focalLength m) * ((cropX + cropY) / 2))
      | true, false => Some (toNumber (focalLength m) * cropX)
      | false, true => Some (toNumber (focalLength m) * cropY)
      | false, false => None
      end
  end.

(** "All three strategies yield nothing", spelled out on the fields. *)
Definition specAllStrategiesFail (avail : value -> bool) (m : MetadataRecord)
  : bool :=
  negb (avail (focalLengthIn35mm m))
  && negb (avail (focalLength m) && avail (scaleFactor35efl m))
  && (negb (avail (focalLength m))
      || strictEqNum (focalPlaneUnit m) 1
      || (negb (specAxisResolves avail (width m) (focalPlaneXRes m))
          && negb (specAxisResolves avail (height m) (focalPlaneYRes m)))).

(** The message mentions a piece of text. *)
Definition mentions (needle message : string) : bool :=
  match index 0 needle message with
  | Some _ => true
  | None => false
  end.

(** A field that is [null] or a number that is not negative. *)
Definition nonNegative (v : value) : Prop := 0 <= toNumber v.

(** An EXIF orientation code. *)
Definition orientationCode (code : Z) : value := JNum (IZR code).

(** The codes of a quarter turn (90 or 270 degrees). *)
Definition isQuarterTurnCode (code : Z) : bool :=
  existsb (Z.eqb code) [5; 6; 7; 8]%Z.

(** ** The metadata reader ([src/exif.js])

    The tag set comes from the external ExifTool binding.  A tag is absent
    ([null] or [undefined]), a number, or some other value, of which the code
    only ever uses the string form [String(val)].  The builtin [parseFloat]
    is a parameter: [None] is its NaN (an infinite result is outside the
    model of numbers). *)

Inductive rawValue : Type :=
| RawAbsent
| RawNumber (x : R)
| RawOther (text : string).

(** [parseNum(val)] *)
Definition parseNum (parseFloat : string -> option R) (val : rawValue) : value :=
  match val with
  | RawAbsent => JNull
  | RawNumber x => JNum x
  | RawOther text =>
      match parseFloat text with
      | Some n => JNum n
      | None => JNull
      end
  end.

(** [a ?? b] on values. *)
Definition orElse (a b : value) : value :=
  match a with
  | JNull => b
  | JNum _ => a
  end.

Record RawTags : Type := mkRaw {
  ImageWidth : rawValue;
  ExifImageWidth : rawValue;
  PixelXDimension : rawValue;
  ImageHeight : rawValue;
  ExifImageHeight : rawValue;
  PixelYDimension : rawValue;
  Orientation : rawValue;
  FocalLength : rawValue;
  FocalLengthIn35mmFormat : rawValue;
  ScaleFactor35efl : rawValue;
  FocalPlaneXResolution : rawValue;
  FocalPlaneYResolution : rawValue;
  FocalPlaneResolutionUnit : rawValue;
  DigitalZoomRatio : rawValue;
  FocusDistance : rawValue;
  SubjectDistance : rawValue;
  ApproximateFocusDistance : rawValue
}.

Definition doubleQuote : string := String "034"%char EmptyString.

Definition noExifMessage (filePath : string) : string :=
  "No EXIF data found in " ++ doubleQuote ++ filePath ++ doubleQuote ++ ".".

Definition noDimensionsMessage : string :=
  "Could not determine image pixel dimensions from EXIF data.".

(** The orientation block of [extractExif]: default 1, a number as it is, a
    descriptive string by the regular expressions [/90/], [/270/], [/180/]
    tried in this order. *)
Definition extractOrientation (val : rawValue) : value :=
  match val with
  | RawAbsent => JNum 1
  | RawNumber x => JNum x
  | RawOther str =>
      if mentions "90" str then JNum 6
      else if mentions "270" str then JNum 8
      else if mentions "180" str then JNum 3
      else JNum 1
  end.

(** [extractExif(filePath)], from the tag set [raw] that
    [exiftool.read(filePath)] resolved to ([None]: a falsy result). *)
Definition extractExif (parseFloat : string -> option R) (filePath : string)
                       (raw : option RawTags) : outcome MetadataRecord :=
  match raw with
  | None => Thrown (noExifMessage filePath)
  | Some raw =>
      let num := parseNum parseFloat in
      let w :=
        orElse (num (ImageWidth raw))
          (orElse (num (ExifImageWidth raw))
             (orElse (num (PixelXDimension raw)) JNull)) in
      let h :=
        orElse (num (ImageHeight raw))
          (orElse (num (ExifImageHeight raw))
             (orElse (num (PixelYDimension raw)) JNull)) in
      if negb (truthy w) || negb (truthy h) then Thrown noDimensionsMessage
      else
        Returned
          (mkMeta w h
             (extractOrientation (Orientation raw))
             (num (FocalLength raw))
             (num (FocalLengthIn35mmFormat raw))
             (num (ScaleFactor35efl raw))
             (num (FocalPlaneXResolution raw))
             (num (FocalPlaneYResolution raw))
             (num (FocalPlaneResolutionUnit raw))
             (num (DigitalZoomRatio raw))
             (orElse (num (FocusDistance raw))
                (orElse (num (SubjectDistance raw))
                   (orElse (num (ApproximateFocusDistance raw)) JNull))))
  end.

(** [analyze(filePath, options)] as a whole: [read] is [exiftool.read],
    which may itself reject. *)
Definition analyzeFile (parseFloat : string -> option R)
                       (read : string -> outcome (option RawTags))
                       (filePath : string) (applyCloseFocusCorrection : bool)
  : outcome ResultRecord :=
  match read filePath with
  | Thrown msg => Thrown msg
  | Returned raw =>
      match extractExif parseFloat filePath raw with
      | Thrown msg => Thrown msg
      | Returned meta => analyze filePath meta applyCloseFocusCorrection
      end
  end.

(** ** The batch loop ([src/batch.js])

    The [for] loop of [main] over the image files it found: [run] is the
    call [analyze(filePath)] for a file of the directory; the pair is
    [(successes, failures)]. *)

Record Tally : Type := mkTally {
  successes : nat;
  failures : nat
}.

Definition tallyStep (run : string -> outcome ResultRecord) (t : Tally)
                     (file : string) : Tally :=
  match run file with
  | Returned _ => mkTally (S (successes t)) (failures t)
  | Thrown _ => mkTally (successes t) (S (failures t))
  end.

Definition batchTally (run : string -> outcome ResultRecord)
                      (imageFiles : list string) : Tally :=
  fold_left (tallyStep run) imageFiles (mkTally 0 0).

Definition isReturned {A : Type} (o : outcome A) : bool :=
  match o with
  | Returned _ => true
  | Thrown _ => false
  end.

(** ** Concrete inputs for the metadata reader and the batch loop *)

Definition noTags : RawTags :=
  mkRaw RawAbsent RawAbsent RawAbsent RawAbsent RawAbsent RawAbsent
        RawAbsent RawAbsent RawAbsent RawAbsent RawAbsent RawAbsent
        RawAbsent RawAbsent RawAbsent RawAbsent RawAbsent.

(** 6000 x 4000 pixels, turned a quarter, 35 mm equivalent 90 mm. *)
Definition portraitTags : RawTags :=
  mkRaw (RawNumber 6000) RawAbsent RawAbsent (RawNumber 4000) RawAbsent
        RawAbsent (RawOther "Rotate 90 CW") RawAbsent (RawNumber 90)
        RawAbsent RawAbsent RawAbsent RawAbsent RawAbsent RawAbsent
        RawAbsent RawAbsent.

(** A zero [ImageWidth] in front of a usable [ExifImageWidth]. *)
Definition zeroWidthTags : RawTags :=
  mkRaw (RawNumber 0) (RawNumber 6000) RawAbsent (RawNumber 4000) RawAbsent
        RawAbsent RawAbsent RawAbsent (RawNumber 90)
        RawAbsent RawAbsent RawAbsent RawAbsent RawAbsent RawAbsent
        RawAbsent RawAbsent.

(** A [parseFloat] that parses nothing, and a reader that knows one file. *)
Definition parsesNothing (text : string) : option R := None.

Definition readsPortrait (filePath : string) : outcome (option RawTags) :=
  if String.eqb filePath "portrait.jpg" then Returned (Some portraitTags)
  else Thrown "ENOENT".

(** The sample record of the specification: 6000 x 4000 pixels, focal
    length 90 mm, 35 mm equivalent 90 mm. *)
Definition sampleRecord : MetadataRecord :=
  withFocalLengthIn35mm (JNum 90) (withFocalLength (JNum 90) bareRecord).

(** The same with the subject two metres away. *)
Definition sampleCloseRecord : MetadataRecord :=
  withFocusDistance (JNum 2) sampleRecord.

(** ** The resolver over doubles

    The same functions of [src/compute.js], number for number, over
    binary64.  [null] and a missing property are [JNull] as above. *)

Module Binary64.

Local Open Scope float_scope.

(** A decimal literal denotes the double nearest to it, as in the source. *)
#[local] Set Warnings "-inexact-float".

Inductive value : Type :=
| JNull
| JNum (x : float).

(** [ToBoolean]: [null], [+0], [-0] and NaN are falsy. *)
Definition truthy (v : value) : bool :=
  match v with
  | JNull => false
  | JNum x => negb (x =? 0) && negb (is_nan x)
  end.

(** [ToNumber]: [null] coerces to [+0]. *)
Definition toNumber (v : value) : float :=
  match v with
  | JNull => 0
  | JNum x => x
  end.

(** Strict equality [v === n] against a number literal. *)
Definition strictEqNum (v : value) (n : float) : bool :=
  match v with
  | JNull => false
  | JNum x => x =? n
  end.

Record MetadataRecord : Type := mkMeta {
  width : value;
  height : value;
  orientation : value;
  focalLength : value;
  focalLengthIn35mm : value;
  scaleFactor35efl : value;
  focalPlaneXRes : value;
  focalPlaneYRes : value;
  focalPlaneUnit : value;
  digitalZoomRatio : value;
  focusDistance : value
}.

Definition SENSOR_WIDTH_35MM : float := 36.
Definition SENSOR_HEIGHT_35MM : float := 24.

Definition FOCAL_PLANE_UNIT_MM : list (float * float) :=
  [ (2, 25.4); (3, 10); (4, 1); (5, 0.001) ].

(** Property lookup [table[key]]: [None] is [undefined]. *)
Fixpoint table_get (table : list (float * float)) (key : float)
  : option float :=
  match table with
  | [] => None
  | (k, v) :: rest => if key =? k then Some v else table_get rest key
  end.

Definition unit_entry (unitTag : value) : option float :=
  match unitTag with
  | JNull => None
  | JNum u => table_get FOCAL_PLANE_UNIT_MM u
  end.

(** [focalPlaneUnitMul]: [None] is the [null] the source returns. *)
Definition focalPlaneUnitMul (unitTag : value) : option float :=
  if strictEqNum unitTag 1 then None
  else nullish (unit_entry unitTag) (unit_entry (JNum 2)).

Record SensorDimensions : Type := mkSensor {
  sensorWidth : value;
  sensorHeight : value
}.

Definition isNull (v : value) : bool :=
  match v with
  | JNull => true
  | JNum _ => false
  end.

(** [computeActualSensorDimensions(meta)]; [None] is [null]. *)
Definition computeActualSensorDimensions (meta : MetadataRecord)
  : option SensorDimensions :=
  match focalPlaneUnitMul (focalPlaneUnit meta) with
  | None => None
  | Some unitMul =>
      let sw :=
        if truthy (focalPlaneXRes meta) && truthy (width meta)
        then JNum ((toNumber (width meta) / toNumber (focalPlaneXRes meta))
                   * unitMul)
        else JNull in
      let sh :=
        if truthy (focalPlaneYRes meta) && truthy (height meta)
        then JNum ((toNumber (height meta) / toNumber (focalPlaneYRes meta))
                   * unitMul)
        else JNull in
      if isNull sw && isNull sh then None
      else Some (mkSensor sw sh)
  end.

Definition cropFactorX (sensor : SensorDimensions) : option float :=
  if truthy (sensorWidth sensor)
  then Some (SENSOR_WIDTH_35MM / toNumber (sensorWidth sensor))
  else None.

Definition cropFactorXY (sensor : SensorDimensions) : option float :=
  let cropFactor := cropFactorX sensor in
  if truthy (sensorHeight sensor) then
    let cropFactorY := SENSOR_HEIGHT_35MM / toNumber (sensorHeight sensor) in
    match cropFactor with
    | None => Some cropFactorY
    | Some c => Some ((c + cropFactorY) / 2)
    end
  else cropFactor.

(** [f35mmFromFocalPlane(meta)]; [None] is [null]. *)
Definition f35mmFromFocalPlane (meta : MetadataRecord) : option float :=
  if negb (truthy (focalLength meta)) then None
  else
    match computeActualSensorDimensions meta with
    | None => None
    | Some sensor =>
        match cropFactorXY sensor with
        | None => None
        | Some cropFactor => Some (toNumber (focalLength meta) * cropFactor)
        end
    end.

(** [getF35mm(meta)] *)
Definition getF35mm (meta : MetadataRecord) : outcome float :=
  if truthy (focalLengthIn35mm meta) then
    Returned (toNumber (focalLengthIn35mm meta))
  else if truthy (focalLength meta) && truthy (scaleFactor35efl meta) then
    Returned (toNumber (focalLength meta) * toNumber (scaleFactor35efl meta))
  else
    match f35mmFromFocalPlane meta with
    | Some fromPlane => Returned fromPlane
    | None => Thrown resolutionErrorMessage
    end.

(** A value that is not negative: [null], or a number that is not below
    zero (a zero of either sign, a positive number, +infinity, NaN). *)
Definition notNegative (x : float) : Prop := (x <? 0) = false.

Definition fieldNotNegative (v : value) : Prop := notNegative (toNumber v).

(** The same on the specification of binary64 the kernel's operations are
    axiomatised by: no minus sign on a finite number or an infinity. *)
Definition signFree (s : spec_float) : Prop :=
  match s with
  | S754_finite true _ _ => False
  | S754_infinity true => False
  | _ => True
  end.

(** Neither a zero nor NaN: what a truthy number is. *)
Definition nonZeroNumber (s : spec_float) : Prop :=
  match s with
  | S754_zero _ => False
  | S754_nan => False
  | _ => True
  end.

(** *** Concrete records *)

Definition bareRecord : MetadataRecord :=
  mkMeta (JNum 6000) (JNum 4000) (JNum 1)
         JNull JNull JNull JNull JNull JNull JNull JNull.

(** A negative direct tag. *)
Definition negativeTagRecord : MetadataRecord :=
  mkMeta (JNum 6000) (JNum 4000) (JNum 1)
         JNull (JNum (-50)) JNull JNull JNull JNull JNull JNull.

(** Focal length and scale factor 1e-200 each: both positive, and their
    product is below the smallest double. *)
Definition underflowRecord : MetadataRecord :=
  mkMeta (JNum 6000) (JNum 4000) (JNum 1)
         (JNum 1e-200) JNull (JNum 1e-200) JNull JNull JNull JNull JNull.

(** Focal-plane tags in millimetres: a sensor of 24 mm by 16 mm. *)
Definition focalPlaneRecord : MetadataRecord :=
  mkMeta (JNum 6000) (JNum 4000) (JNum 1)
         (JNum 50) JNull JNull (JNum 250) (JNum 250) (JNum 4) JNull JNull.

End Binary64.

(** * Basic facts about coercions and comparisons *)

Lemma Rleb_true (x y : R) : Rleb x y = true <-> x <= y.
Proof. unfold Rleb; destruct (Rle_dec x y); split; intros; try easy. Qed.

Lemma Rleb_false (x y : R) : Rleb x y = false <-> y < x.
Proof.
  unfold Rleb; destruct (Rle_dec x y); split; intros; try easy; lra.
Qed.

Lemma Reqb_true (x y : R) : Reqb x y = true <-> x = y.
Proof. unfold Reqb; destruct (Req_dec_T x y); split; intros; try easy. Qed.

Lemma Reqb_false (x y : R) : Reqb x y = false <-> x <> y.
Proof. unfold Reqb; destruct (Req_dec_T x y); split; intros; try easy. Qed.

Lemma truthy_num (x : R) : truthy (JNum x) = true <-> x <> 0.
Proof. simpl; destruct (Req_dec_T x 0); split; intros; try easy. Qed.

Lemma truthy_false_num (x : R) : truthy (JNum x) = false <-> x = 0.
Proof. simpl; destruct (Req_dec_T x 0); split; intros; try easy. Qed.

Lemma truthy_toNumber (v : value) : truthy v = true -> toNumber v <> 0.
Proof. destruct v; simpl; [easy | destruct (Req_dec_T x 0); easy]. Qed.

Lemma truthy_present (v : value) : truthy v = true -> present v = true.
Proof. destruct v; simpl; easy. Qed.

(** Decide every comparison of real constants that occurs in the goal. *)
Ltac decide_reals :=
  repeat match goal with
         | |- context [Req_dec_T ?a ?b] =>
             destruct (Req_dec_T a b); try lra
         | |- context [Rle_dec ?a ?b] =>
             destruct (Rle_dec a b); try lra
         end.

(** Evaluate a call on a concrete record: reduce, decide, and again. *)
Ltac js_eval :=
  repeat (progress (simpl; unfold Reqb, Rleb; decide_reals)).

Ltac js_compute :=
  cbv [truthy toNumber strictEqNum Rleb Reqb negb andb orb isNull present];
  decide_reals.

(** * The resolver: priority of the direct tag *)

Lemma getF35mm_truthy_tag (m : MetadataRecord) :
  truthy (focalLengthIn35mm m) = true ->
  getF35mm m = Returned (toNumber (focalLengthIn35mm m)).
Proof. intros Ht; unfold getF35mm; rewrite Ht; reflexivity. Qed.

Lemma getF35mm_zeroTagRecord : getF35mm zeroTagRecord = Returned (50 * 2).
Proof. unfold getF35mm; simpl; decide_reals; reflexivity. Qed.

(** C1, as stated, fails: in [zeroTagRecord] the field [focalLengthIn35mm] is
    present (it holds the number 0), yet [getF35mm] does not return it; it
    returns the product [focalLength * scaleFactor35efl = 100]. *)
Lemma getF35mm_present_zero_tag_not_returned :
  present (focalLengthIn35mm zeroTagRecord) = true
  /\ focalLengthIn35mm zeroTagRecord = JNum 0
  /\ getF35mm zeroTagRecord = Returned (50 * 2)
  /\ getF35mm zeroTagRecord <> Returned 0.
Proof.
  repeat split.
  - apply getF35mm_zeroTagRecord.
  - rewrite getF35mm_zeroTagRecord; intros H; injection H; lra.
Qed.

(** C1, amended: whenever [focalLengthIn35mm] holds a number other than 0,
    [getF35mm] returns exactly that number, whatever the other fields of the
    record hold (so also when [focalLength * scaleFactor35efl] disagrees). *)
Theorem getF35mm_direct_tag_wins (m : MetadataRecord) (x : R) :
  focalLengthIn35mm m = JNum x -> x <> 0 -> getF35mm m = Returned x.
Proof.
  intros Hfield Hx; rewrite getF35mm_truthy_tag; rewrite Hfield.
  - reflexivity.
  - apply truthy_num; assumption.
Qed.

Lemma getF35mm_direct_tag_wins_witness :
  getF35mm disagreeingRecord = Returned 90
  /\ toNumber (focalLength disagreeingRecord)
     * toNumber (scaleFactor35efl disagreeingRecord) <> 90.
Proof.
  split.
  - apply (getF35mm_direct_tag_wins disagreeingRecord 90); [reflexivity | lra].
  - simpl; lra.
Defined.

(** * The orientation adjuster *)

Ltac no_code_matches :=
  repeat match goal with
         | |- context [Z.eqb ?c ?k] => destruct (Z.eqb_spec c k); [lia | ]
         end;
  reflexivity.

Lemma isRotatedCode_orientationCode (code : Z) :
  isRotatedCode (orientationCode code) = isQuarterTurnCode code.
Proof.
  unfold isRotatedCode, orientationCode, isQuarterTurnCode; simpl toNumber.
  destruct (Rleb 5 (IZR code)) eqn:Hlo; destruct (Rleb (IZR code) 8) eqn:Hhi;
    simpl.
  - apply Rleb_true in Hlo; apply Rleb_true in Hhi.
    apply le_IZR in Hlo; apply le_IZR in Hhi.
    assert (Hc : (code = 5 \/ code = 6 \/ code = 7 \/ code = 8)%Z) by lia.
    destruct Hc as [-> | [-> | [-> | ->]]]; reflexivity.
  - apply Rleb_false in Hhi; apply lt_IZR in Hhi.
    no_code_matches.
  - apply Rleb_false in Hlo; apply lt_IZR in Hlo.
    no_code_matches.
  - apply Rleb_false in Hlo; apply lt_IZR in Hlo.
    no_code_matches.
Qed.

(** On orientation codes (integers): [adjustForOrientation] returns the
    swapped dimensions exactly when the code is 5, 6, 7 or 8 and the
    dimensions unchanged for every other code, inside or outside 1..8; a
    missing orientation leaves them unchanged too. *)
Theorem adjustForOrientation_swaps_exactly_5_to_8 (w h : value) (code : Z) :
  adjustForOrientation w h (orientationCode code)
  = (if isQuarterTurnCode code then mkDims h w else mkDims w h)
  /\ adjustForOrientation w h JNull = mkDims w h.
Proof.
  split.
  - unfold adjustForOrientation; rewrite isRotatedCode_orientationCode.
    reflexivity.
  - unfold adjustForOrientation, isRotatedCode; js_compute; reflexivity.
Qed.

(** The source compares numerically, so a value that is no orientation code
    but lies between 5 and 8 is swapped as well. *)
Remark adjustForOrientation_between_codes (w h : value) :
  adjustForOrientation w h (JNum 6.5) = mkDims h w.
Proof.
  unfold adjustForOrientation, isRotatedCode; js_compute; reflexivity.
Qed.

(** * The pixel focal-length calculator *)

(** C9: [computeDiagonalPixelFocalLength f W H] equals
    [computeDiagonalPixelFocalLength f H W] for every f, W and H (in
    particular for positive ones): only the sum of squares matters. *)
Theorem computeDiagonalPixelFocalLength_swap (f35mm : R) (w h : value) :
  computeDiagonalPixelFocalLength f35mm w h
  = computeDiagonalPixelFocalLength f35mm h w.
Proof.
  unfold computeDiagonalPixelFocalLength.
  rewrite (Rplus_comm (toNumber w ^ 2)); reflexivity.
Qed.

(** * The close-focus corrector *)

Lemma closeFocusCorrectionFactor_null (f : value) :
  closeFocusCorrectionFactor f JNull = 1.
Proof. reflexivity. Qed.

Lemma closeFocusCorrectionFactor_nonpositive (f : value) (dist : R) :
  dist <= 0 -> closeFocusCorrectionFactor f (JNum dist) = 1.
Proof.
  intros Hd; unfold closeFocusCorrectionFactor; simpl toNumber.
  apply Rleb_true in Hd; rewrite Hd, orb_true_r; reflexivity.
Qed.

Lemma closeFocusCorrectionFactor_positive (f : value) (dist : R) :
  0 < dist ->
  closeFocusCorrectionFactor f (JNum dist)
  = if Rleb (1000 * dist - toNumber f) 0 then 1
    else 1 + toNumber f / (1000 * dist - toNumber f).
Proof.
  intros Hd; unfold closeFocusCorrectionFactor; simpl toNumber.
  assert (Ht : truthy (JNum dist) = true) by (apply truthy_num; lra).
  assert (Hn : Rleb dist 0 = false) by (apply Rleb_false; lra).
  rewrite Ht, Hn; reflexivity.
Qed.

Lemma closeFocusCorrectionFactor_inside (f : value) (dist : R) :
  0 < dist -> 1000 * dist - toNumber f <= 0 ->
  closeFocusCorrectionFactor f (JNum dist) = 1.
Proof.
  intros Hd Hin; rewrite closeFocusCorrectionFactor_positive by assumption.
  apply Rleb_true in Hin; rewrite Hin; reflexivity.
Qed.

Lemma closeFocusCorrectionFactor_thin_lens (f : value) (dist : R) :
  0 < dist -> 0 < 1000 * dist - toNumber f ->
  closeFocusCorrectionFactor f (JNum dist)
  = 1 + toNumber f / (1000 * dist - toNumber f).
Proof.
  intros Hd Hout; rewrite closeFocusCorrectionFactor_positive by assumption.
  apply Rleb_false in Hout; rewrite Hout; reflexivity.
Qed.

Lemma closeFocusCorrectionFactor_ge_1 (f dist : value) :
  0 <= toNumber f -> 1 <= closeFocusCorrectionFactor f dist.
Proof.
  intros Hf; destruct dist as [ | d].
  - rewrite closeFocusCorrectionFactor_null; lra.
  - destruct (Rle_lt_dec d 0) as [Hd | Hd].
    + rewrite closeFocusCorrectionFactor_nonpositive by assumption; lra.
    + destruct (Rle_lt_dec (1000 * d - toNumber f) 0) as [Hin | Hout].
      * rewrite closeFocusCorrectionFactor_inside by assumption; lra.
      * rewrite closeFocusCorrectionFactor_thin_lens by assumption.
        assert (0 <= toNumber f / (1000 * d - toNumber f)).
        { apply Rmult_le_pos; [assumption | ].
          left; apply Rinv_0_lt_compat; assumption. }
        lra.
Qed.

Lemma closeFocusCorrectionFactor_100_at_1_18 :
  closeFocusCorrectionFactor (JNum 100) (JNum 1.18) = 1 + 100 / 1080.
Proof.
  rewrite closeFocusCorrectionFactor_thin_lens by (simpl; lra).
  simpl toNumber; replace (1000 * 1.18 - 100) with 1080 by lra; reflexivity.
Qed.

Lemma closeFocusCorrectionFactor_100_at_100 :
  closeFocusCorrectionFactor (JNum 100) (JNum 100) = 1 + 100 / 99900.
Proof.
  rewrite closeFocusCorrectionFactor_thin_lens by (simpl; lra).
  simpl toNumber; replace (1000 * 100 - 100) with 99900 by lra; reflexivity.
Qed.

Lemma closeFocusCorrectionFactor_negative_focal_length :
  closeFocusCorrectionFactor (JNum (-1000)) (JNum 1) = 1 + -1000 / 2000.
Proof.
  rewrite closeFocusCorrectionFactor_thin_lens by (simpl; lra).
  simpl toNumber; replace (1000 * 1 - -1000) with 2000 by lra; reflexivity.
Qed.

(** C5: the source documents its result as a multiplier of at least 1
    ([@returns correction multiplier (>= 1.0)]) and does not keep to it.  For
    the focal length -1000 and the focus distance 1 the image-side distance
    is [d = 2000] and the source returns [1 + (-1000) / 2000 = 0.5]. *)
Lemma closeFocusCorrectionFactor_below_1 :
  closeFocusCorrectionFactor (JNum (-1000)) (JNum 1) = 1 / 2
  /\ closeFocusCorrectionFactor (JNum (-1000)) (JNum 1) < 1.
Proof.
  rewrite closeFocusCorrectionFactor_negative_focal_length; split; lra.
Qed.

(** X27: for every focal length and focus distance,
    [closeFocusCorrectionFactor] returns exactly 1 when the focus distance is
    null or not positive, exactly 1 when
    [d = 1000 * focusDistance - focalLength] is not positive, and
    [1 + focalLength / d] otherwise; when the focal length is not negative
    the multiplier is at least 1; and the two sample values are within 0.001
    of 1.0926 and of 1.001. *)
Theorem closeFocusCorrectionFactor_rules :
  (forall f, closeFocusCorrectionFactor f JNull = 1)
  /\ (forall f dist, dist <= 0 -> closeFocusCorrectionFactor f (JNum dist) = 1)
  /\ (forall f dist, 0 < dist -> 1000 * dist - toNumber f <= 0 ->
        closeFocusCorrectionFactor f (JNum dist) = 1)
  /\ (forall f dist, 0 < dist -> 0 < 1000 * dist - toNumber f ->
        closeFocusCorrectionFactor f (JNum dist)
        = 1 + toNumber f / (1000 * dist - toNumber f))
  /\ (forall f dist, 0 <= toNumber f -> 1 <= closeFocusCorrectionFactor f dist)
  /\ Rabs (closeFocusCorrectionFactor (JNum 100) (JNum 1.18) - 1.0926) <= 0.001
  /\ Rabs (closeFocusCorrectionFactor (JNum 100) (JNum 100) - 1.001) <= 0.001.
Proof.
  split; [exact closeFocusCorrectionFactor_null | ].
  split; [exact closeFocusCorrectionFactor_nonpositive | ].
  split; [exact closeFocusCorrectionFactor_inside | ].
  split; [exact closeFocusCorrectionFactor_thin_lens | ].
  split; [exact closeFocusCorrectionFactor_ge_1 | ].
  split.
  - rewrite closeFocusCorrectionFactor_100_at_1_18.
    apply Rabs_le; split; lra.
  - rewrite closeFocusCorrectionFactor_100_at_100.
    apply Rabs_le; split; lra.
Qed.

Lemma closeFocusCorrectionFactor_rules_witness :
  closeFocusCorrectionFactor (JNum 50) (JNum 2) = 1 + 50 / (1000 * 2 - 50)
  /\ 1 <= closeFocusCorrectionFactor (JNum 50) (JNum 2).
Proof.
  split.
  - apply (proj1 (proj2 (proj2 (proj2 closeFocusCorrectionFactor_rules)))
             (JNum 50) 2); simpl; lra.
  - apply (proj1 (proj2 (proj2 (proj2 (proj2 closeFocusCorrectionFactor_rules))))
             (JNum 50) (JNum 2)); simpl; lra.
Defined.

(** * The focal-plane derivation *)

Lemma focalPlaneUnitMul_spec (unit : value) :
  focalPlaneUnitMul unit = specUnitMultiplier unit.
Proof.
  destruct unit as [ | u]; unfold focalPlaneUnitMul, specUnitMultiplier.
  - simpl; unfold Reqb; decide_reals; reflexivity.
  - simpl; unfold Reqb; decide_reals; reflexivity.
Qed.

Lemma specUnitMultiplier_positive (unit : value) (mul : R) :
  specUnitMultiplier unit = Some mul -> 0 < mul.
Proof.
  destruct unit as [ | u]; unfold specUnitMultiplier, Reqb.
  - intros H; injection H as <-; lra.
  - repeat match goal with
           | |- context [Req_dec_T ?a ?b] => destruct (Req_dec_T a b)
           end;
      intros H; try discriminate H; injection H as <-; lra.
Qed.

(** A resolved axis has a sensor dimension other than 0, so the truthiness
    tests of [f35mmFromFocalPlane] on the sensor dimensions always pass. *)
Lemma resolved_dimension_truthy (pixels resolution : value) (mul : R) :
  truthy resolution = true -> truthy pixels = true -> 0 < mul ->
  truthy (JNum ((toNumber pixels / toNumber resolution) * mul)) = true.
Proof.
  intros Hr Hp Hmul; apply truthy_num.
  apply truthy_toNumber in Hr; apply truthy_toNumber in Hp.
  apply Rmult_integral_contrapositive_currified; [ | lra].
  unfold Rdiv; apply Rmult_integral_contrapositive_currified; [assumption | ].
  apply Rinv_neq_0_compat; assumption.
Qed.

Lemma f35mmFromFocalPlane_spec (m : MetadataRecord) :
  truthy (focalLength m) = true ->
  f35mmFromFocalPlane m = specFocalPlaneDerivation truthy m.
Proof.
  intros Hfl.
  unfold f35mmFromFocalPlane, specFocalPlaneDerivation,
    computeActualSensorDimensions.
  rewrite Hfl, focalPlaneUnitMul_spec; simpl negb.
  destruct (specUnitMultiplier (focalPlaneUnit m)) as [mul | ] eqn:Hmul;
    [ | reflexivity].
  apply specUnitMultiplier_positive in Hmul.
  unfold specAxisResolves, specSensorDimension.
  destruct (truthy (focalPlaneXRes m)) eqn:Hxr;
    destruct (truthy (width m)) eqn:Hw;
    destruct (truthy (focalPlaneYRes m)) eqn:Hyr;
    destruct (truthy (height m)) eqn:Hh;
    cbn [andb isNull];
    unfold cropFactorXY, cropFactorX; cbn [sensorWidth sensorHeight];
    repeat rewrite resolved_dimension_truthy by assumption;
    cbn [truthy toNumber];
    reflexivity.
Qed.

Lemma focalPlaneUnitMul_other (u : R) :
  u <> 1 -> u <> 2 -> u <> 3 -> u <> 4 -> u <> 5 ->
  focalPlaneUnitMul (JNum u) = Some 25.4.
Proof.
  intros; unfold focalPlaneUnitMul; simpl; unfold Reqb.
  repeat match goal with
         | |- context [Req_dec_T ?a ?b] =>
             destruct (Req_dec_T a b); try contradiction; try lra
         end.
  reflexivity.
Qed.

Lemma f35mmFromFocalPlane_zeroFocalLengthRecord :
  f35mmFromFocalPlane zeroFocalLengthRecord = None.
Proof. unfold f35mmFromFocalPlane; simpl; decide_reals; reflexivity. Qed.

(** C2, as stated, fails: in [zeroFocalLengthRecord] the field [focalLength]
    is present (it holds the number 0), the unit is millimetres and the X
    axis resolves to a 24 mm wide sensor, so the claim gives the value
    [0 * (36 / 24)]; the source yields no value, and [getF35mm] throws. *)
Lemma f35mmFromFocalPlane_present_zero_focal_length :
  present (focalLength zeroFocalLengthRecord) = true
  /\ specFocalPlaneDerivation present zeroFocalLengthRecord
     = Some (0 * (36 / ((6000 / 250) * 1)))
  /\ f35mmFromFocalPlane zeroFocalLengthRecord = None
  /\ getF35mm zeroFocalLengthRecord = Thrown resolutionErrorMessage.
Proof.
  split; [reflexivity | ].
  split.
  - unfold specFocalPlaneDerivation; simpl; unfold Reqb; decide_reals.
    reflexivity.
  - split; [apply f35mmFromFocalPlane_zeroFocalLengthRecord | ].
    unfold getF35mm; rewrite f35mmFromFocalPlane_zeroFocalLengthRecord.
    simpl; decide_reals; reflexivity.
Qed.

(** C2, amended: the unit multiplier is no value for unit code 1, 25.4 for
    code 2, 10 for code 3, 1 for code 4, 0.001 for code 5 and 25.4 for any
    other or missing code; and for every record whose [focalLength] is
    present and not 0, an axis resolving when its pixel dimension and its
    resolution are both present and not 0, the derivation yields
    [focalLength * cropFactor], the crop factor being
    [36 / ((width / focalPlaneXRes) * multiplier)],
    [24 / ((height / focalPlaneYRes) * multiplier)], or their mean when both
    axes resolve, and yields no value when the unit code is 1 or no axis
    resolves; when the first two strategies do not apply, that value is
    what [getF35mm] returns, and no value makes it throw. *)
Theorem f35mmFromFocalPlane_derivation :
  focalPlaneUnitMul (JNum 1) = None
  /\ focalPlaneUnitMul (JNum 2) = Some 25.4
  /\ focalPlaneUnitMul (JNum 3) = Some 10
  /\ focalPlaneUnitMul (JNum 4) = Some 1
  /\ focalPlaneUnitMul (JNum 5) = Some 0.001
  /\ focalPlaneUnitMul JNull = Some 25.4
  /\ (forall u, u <> 1 -> u <> 2 -> u <> 3 -> u <> 4 -> u <> 5 ->
        focalPlaneUnitMul (JNum u) = Some 25.4)
  /\ (forall m, truthy (focalLength m) = true ->
        f35mmFromFocalPlane m = specFocalPlaneDerivation truthy m)
  /\ (forall m, truthy (focalLengthIn35mm m) = false ->
        truthy (focalLength m) = true ->
        truthy (scaleFactor35efl m) = false ->
        getF35mm m = match specFocalPlaneDerivation truthy m with
                     | Some f35mm => Returned f35mm
                     | None => Thrown resolutionErrorMessage
                     end).
Proof.
  repeat split;
    try (unfold focalPlaneUnitMul; simpl; unfold Reqb; decide_reals;
         reflexivity).
  - exact focalPlaneUnitMul_other.
  - exact f35mmFromFocalPlane_spec.
  - intros m H35 Hfl Hsf; unfold getF35mm.
    rewrite H35, Hfl, Hsf, f35mmFromFocalPlane_spec by assumption.
    reflexivity.
Qed.

Lemma f35mmFromFocalPlane_derivation_witness :
  f35mmFromFocalPlane focalPlaneRecord
  = specFocalPlaneDerivation truthy focalPlaneRecord
  /\ specFocalPlaneDerivation truthy focalPlaneRecord
     = Some (50 * ((36 / ((6000 / 250) * 1) + 24 / ((4000 / 250) * 1)) / 2)).
Proof.
  split.
  - apply (proj1 (proj2 (proj2 (proj2 (proj2 (proj2 (proj2 (proj2
             f35mmFromFocalPlane_derivation))))))) focalPlaneRecord).
    simpl; decide_reals; reflexivity.
  - unfold specFocalPlaneDerivation, specAxisResolves, specSensorDimension.
    simpl; unfold Reqb; decide_reals; reflexivity.
Defined.

(** * The resolver: failure *)

Lemma specUnitMultiplier_none_iff (unit : value) :
  specUnitMultiplier unit = None <-> strictEqNum unit 1 = true.
Proof.
  destruct unit as [ | u]; simpl; [easy | ].
  unfold Reqb.
  repeat match goal with
         | |- context [Req_dec_T ?a ?b] => destruct (Req_dec_T a b)
         end; easy.
Qed.

Lemma f35mmFromFocalPlane_none_iff (m : MetadataRecord) :
  f35mmFromFocalPlane m = None
  <-> negb (truthy (focalLength m))
      || strictEqNum (focalPlaneUnit m) 1
      || (negb (specAxisResolves truthy (width m) (focalPlaneXRes m))
          && negb (specAxisResolves truthy (height m) (focalPlaneYRes m)))
      = true.
Proof.
  destruct (truthy (focalLength m)) eqn:Hfl.
  - rewrite f35mmFromFocalPlane_spec by assumption.
    unfold specFocalPlaneDerivation.
    pose proof (specUnitMultiplier_none_iff (focalPlaneUnit m)) as Hunit.
    destruct (specUnitMultiplier (focalPlaneUnit m)) as [mul | ];
      destruct (strictEqNum (focalPlaneUnit m) 1).
    + destruct Hunit as [_ Hunit]; discriminate (Hunit eq_refl).
    + destruct (specAxisResolves truthy (width m) (focalPlaneXRes m));
        destruct (specAxisResolves truthy (height m) (focalPlaneYRes m));
        simpl; easy.
    + simpl; easy.
    + destruct Hunit as [Hunit _]; discriminate (Hunit eq_refl).
  - unfold f35mmFromFocalPlane; rewrite Hfl; simpl; easy.
Qed.

Lemma getF35mm_throws_iff (m : MetadataRecord) :
  throws (getF35mm m) <-> specAllStrategiesFail truthy m = true.
Proof.
  unfold getF35mm, specAllStrategiesFail, throws.
  pose proof (f35mmFromFocalPlane_none_iff m) as Hplane.
  destruct (truthy (focalLengthIn35mm m)).
  { simpl; split; [intros [msg H]; discriminate H | easy]. }
  destruct (truthy (focalLength m) && truthy (scaleFactor35efl m)).
  { simpl; split; [intros [msg H]; discriminate H | easy]. }
  simpl negb; rewrite !andb_true_l, <- Hplane.
  destruct (f35mmFromFocalPlane m) as [fromPlane | ].
  - split; [intros [msg H]; discriminate H | easy].
  - split; [reflexivity | intros _; eexists; reflexivity].
Qed.

Lemma getF35mm_thrown_message (m : MetadataRecord) (msg : string) :
  getF35mm m = Thrown msg -> msg = resolutionErrorMessage.
Proof.
  unfold getF35mm.
  destruct (truthy (focalLengthIn35mm m)); [discriminate | ].
  destruct (truthy (focalLength m) && truthy (scaleFactor35efl m));
    [discriminate | ].
  destruct (f35mmFromFocalPlane m); [discriminate | ].
  intros H; injection H as <-; reflexivity.
Qed.

(** C3, as stated, fails: in [onlyZeroTagRecord] the field
    [focalLengthIn35mm] is not absent (it holds the number 0), so not all of
    the claim's three conditions hold, yet [getF35mm] throws. *)
Lemma getF35mm_throws_with_present_zero_tag :
  getF35mm onlyZeroTagRecord = Thrown resolutionErrorMessage
  /\ present (focalLengthIn35mm onlyZeroTagRecord) = true
  /\ specAllStrategiesFail present onlyZeroTagRecord = false.
Proof.
  split; [ | split; reflexivity].
  unfold getF35mm, f35mmFromFocalPlane; simpl; decide_reals; reflexivity.
Qed.

(** C3, amended: [getF35mm] throws if and only if [focalLengthIn35mm] is
    absent or 0, [focalLength] and [scaleFactor35efl] are not both present
    and different from 0, and the focal-plane derivation cannot produce a
    value ([focalLength] absent or 0, unit code 1, or neither axis has both
    its pixel dimension and its resolution present and different from 0);
    the message thrown is the fixed one, which names the three tag
    combinations and the unit requirement; on every other record a value is
    returned. *)
Theorem getF35mm_fails_exactly_when_no_strategy (m : MetadataRecord) :
  (throws (getF35mm m) <-> specAllStrategiesFail truthy m = true)
  /\ (specAllStrategiesFail truthy m = false <->
      exists f35mm, getF35mm m = Returned f35mm)
  /\ (forall msg, getF35mm m = Thrown msg -> msg = resolutionErrorMessage)
  /\ mentions "FocalLengthIn35mmFormat" resolutionErrorMessage = true
  /\ mentions "FocalLength + ScaleFactor35efl" resolutionErrorMessage = true
  /\ mentions "FocalLength + FocalPlaneResolution" resolutionErrorMessage = true
  /\ mentions "FocalPlaneResolutionUnit must not be 1" resolutionErrorMessage
     = true.
Proof.
  split; [apply getF35mm_throws_iff | ].
  split.
  - pose proof (getF35mm_throws_iff m) as [Hthrow Hfail].
    destruct (getF35mm m) as [f35mm | msg] eqn:Hres.
    + split; [intros _; exists f35mm; reflexivity | intros _].
      destruct (specAllStrategiesFail truthy m); [ | reflexivity].
      destruct (Hfail eq_refl) as [msg Hmsg]; discriminate Hmsg.
    + split.
      * intros Hno; rewrite Hthrow in Hno by (exists msg; reflexivity).
        discriminate Hno.
      * intros [f35mm Hret]; discriminate Hret.
  - split; [apply getF35mm_thrown_message | ].
    repeat split; reflexivity.
Qed.

Lemma getF35mm_fails_exactly_when_no_strategy_witness :
  throws (getF35mm onlyZeroTagRecord).
Proof.
  apply (proj1 (getF35mm_fails_exactly_when_no_strategy onlyZeroTagRecord)).
  unfold specAllStrategiesFail, specAxisResolves; simpl; unfold Reqb.
  decide_reals; reflexivity.
Defined.

(** * The resolver: sign of the result *)

Lemma truthy_nonNegative_positive (v : value) :
  truthy v = true -> nonNegative v -> 0 < toNumber v.
Proof.
  intros Ht Hn; apply truthy_toNumber in Ht; unfold nonNegative in Hn; lra.
Qed.

Lemma crop_factor_positive (reference pixels resolution mul : R) :
  0 < reference -> 0 < pixels -> 0 < resolution -> 0 < mul ->
  0 < reference / ((pixels / resolution) * mul).
Proof.
  intros Href Hp Hr Hmul.
  apply Rdiv_lt_0_compat; [assumption | ].
  apply Rmult_lt_0_compat; [ | assumption].
  apply Rdiv_lt_0_compat; assumption.
Qed.

Lemma specFocalPlaneDerivation_positive (m : MetadataRecord) (f35mm : R) :
  0 < toNumber (focalLength m) ->
  nonNegative (focalPlaneXRes m) -> nonNegative (focalPlaneYRes m) ->
  nonNegative (width m) -> nonNegative (height m) ->
  specFocalPlaneDerivation truthy m = Some f35mm -> 0 < f35mm.
Proof.
  intros Hfl Hxr Hyr Hw Hh; unfold specFocalPlaneDerivation.
  destruct (specUnitMultiplier (focalPlaneUnit m)) as [mul | ] eqn:Hmul;
    [ | discriminate].
  apply specUnitMultiplier_positive in Hmul.
  unfold specAxisResolves, specSensorDimension.
  destruct (truthy (focalPlaneXRes m)) eqn:Txr;
    destruct (truthy (width m)) eqn:Tw;
    destruct (truthy (focalPlaneYRes m)) eqn:Tyr;
    destruct (truthy (height m)) eqn:Th;
    cbn [andb]; intros H; try discriminate H; injection H as <-;
    repeat match goal with
           | T : truthy ?v = true, N : nonNegative ?v |- _ =>
               pose proof (truthy_nonNegative_positive v T N); clear T
           end;
    try (assert (0 < 36 / (toNumber (width m) / toNumber (focalPlaneXRes m) * mul))
          by (apply crop_factor_positive; lra || assumption));
    try (assert (0 < 24 / (toNumber (height m) / toNumber (focalPlaneYRes m) * mul))
          by (apply crop_factor_positive; lra || assumption));
    apply Rmult_lt_0_compat; lra.
Qed.

Lemma getF35mm_negativeTagRecord : getF35mm negativeTagRecord = Returned (-50).
Proof. unfold getF35mm; simpl; decide_reals; reflexivity. Qed.

(** For [negativeTagRecord], whose direct tag holds -50, [getF35mm] does not
    fail and returns -50. *)
Lemma getF35mm_returns_negative :
  getF35mm negativeTagRecord = Returned (-50) /\ -50 < 0.
Proof. split; [apply getF35mm_negativeTagRecord | lra]. Qed.

(** With a negative resolution along one axis the two crop factors can
    cancel, and the value returned is 0. *)
Remark getF35mm_returns_zero :
  exists f35mm, getF35mm cancellingAxesRecord = Returned f35mm /\ f35mm = 0.
Proof.
  unfold getF35mm, f35mmFromFocalPlane, computeActualSensorDimensions,
    cropFactorXY, cropFactorX, focalPlaneUnitMul.
  js_eval.
  eexists; split; [reflexivity | ].
  unfold SENSOR_WIDTH_35MM, SENSOR_HEIGHT_35MM; field.
Qed.

(** In exact arithmetic only: for every metadata record whose fields
    focalLengthIn35mm, focalLength, scaleFactor35efl, focalPlaneXRes,
    focalPlaneYRes, width and height are each null or not negative,
    [getF35mm] either fails or returns a strictly positive number.  Doubles
    underflow, and there the result can be 0: what holds of the code is
    [getF35mm_never_negative], proved over [Binary64] below. *)
Theorem getF35mm_positive_or_fails (m : MetadataRecord) :
  nonNegative (focalLengthIn35mm m) ->
  nonNegative (focalLength m) ->
  nonNegative (scaleFactor35efl m) ->
  nonNegative (focalPlaneXRes m) ->
  nonNegative (focalPlaneYRes m) ->
  nonNegative (width m) ->
  nonNegative (height m) ->
  throws (getF35mm m)
  \/ exists f35mm, getF35mm m = Returned f35mm /\ 0 < f35mm.
Proof.
  intros H35 Hfl Hsf Hxr Hyr Hw Hh; unfold getF35mm.
  destruct (truthy (focalLengthIn35mm m)) eqn:T35.
  { right; eexists; split; [reflexivity | ].
    apply truthy_nonNegative_positive; assumption. }
  destruct (truthy (focalLength m)) eqn:Tfl; cbn [andb].
  - destruct (truthy (scaleFactor35efl m)) eqn:Tsf.
    { right; eexists; split; [reflexivity | ].
      apply Rmult_lt_0_compat; apply truthy_nonNegative_positive; assumption. }
    destruct (f35mmFromFocalPlane m) as [fromPlane | ] eqn:Hplane.
    + right; exists fromPlane; split; [reflexivity | ].
      rewrite f35mmFromFocalPlane_spec in Hplane by assumption.
      apply (specFocalPlaneDerivation_positive m); try assumption.
      apply truthy_nonNegative_positive; assumption.
    + left; eexists; reflexivity.
  - unfold f35mmFromFocalPlane; rewrite Tfl; simpl.
    left; eexists; reflexivity.
Qed.

Lemma getF35mm_positive_or_fails_witness :
  throws (getF35mm focalPlaneRecord)
  \/ exists f35mm, getF35mm focalPlaneRecord = Returned f35mm /\ 0 < f35mm.
Proof.
  apply (getF35mm_positive_or_fails focalPlaneRecord);
    unfold nonNegative; simpl; lra.
Defined.

(** * The analysis of one image *)

Lemma getF35mm_withOrientation (o : value) (m : MetadataRecord) :
  getF35mm (withOrientation o m) = getF35mm m.
Proof. reflexivity. Qed.

Lemma analyze_fPixelDiagonal (file : string) (m : MetadataRecord) (b : bool) :
  outcome_map res_fPixelDiagonal (analyze file m b)
  = outcome_map
      (fun f35mm => computeDiagonalPixelFocalLength f35mm (width m) (height m))
      (getF35mm m).
Proof.
  unfold analyze; destruct (getF35mm m) as [f35mm | msg]; reflexivity.
Qed.

(** C6: the [fPixelDiagonal] of the result of [analyze] is
    [computeDiagonalPixelFocalLength] of the resolved, uncorrected 35 mm
    equivalent focal length and the raw pixel dimensions; it is the same with
    the close-focus correction on or off and the same for any two
    orientation values put in the record (orientation 1 and 6 among them),
    and so is the failure when the focal length cannot be resolved. *)
Theorem analyze_fPixelDiagonal_unaffected
  (file : string) (m : MetadataRecord) (o1 o2 : value) (b1 b2 : bool) :
  outcome_map res_fPixelDiagonal (analyze file m b1)
  = outcome_map
      (fun f35mm => computeDiagonalPixelFocalLength f35mm (width m) (height m))
      (getF35mm m)
  /\ outcome_map res_fPixelDiagonal (analyze file m b1)
     = outcome_map res_fPixelDiagonal (analyze file m b2)
  /\ outcome_map res_fPixelDiagonal (analyze file (withOrientation o1 m) b1)
     = outcome_map res_fPixelDiagonal (analyze file (withOrientation o2 m) b2).
Proof.
  split; [apply analyze_fPixelDiagonal | ].
  split.
  - rewrite !analyze_fPixelDiagonal; reflexivity.
  - rewrite !analyze_fPixelDiagonal, !getF35mm_withOrientation; reflexivity.
Qed.

Lemma closeFocusCorrectionFactor_null_focal_length (dist : R) :
  0 < dist -> closeFocusCorrectionFactor JNull (JNum dist) = 1.
Proof.
  intros Hd; rewrite closeFocusCorrectionFactor_thin_lens by (simpl; lra).
  simpl toNumber; unfold Rdiv; rewrite Rmult_0_l; lra.
Qed.

(** C10: when [analyze] runs with the close-focus correction enabled on a
    record whose [focalLength] is null and whose [focusDistance] is a
    positive number, the correction factor is exactly 1, the result is the
    one computed without the correction, and whenever the 35 mm equivalent
    focal length resolves (which, [focalLength] being null, is from the
    direct tag) a result is returned, not an error, with the FOV of the
    uncorrected focal length. *)
Theorem analyze_correction_with_null_focal_length
  (file : string) (m : MetadataRecord) (dist : R) :
  focalLength m = JNull -> focusDistance m = JNum dist -> 0 < dist ->
  closeFocusCorrectionFactor (focalLength m) (focusDistance m) = 1
  /\ analyze file m true = analyze file m false
  /\ (forall f35mm, getF35mm m = Returned f35mm ->
        f35mm = toNumber (focalLengthIn35mm m)
        /\ exists r, analyze file m true = Returned r
                     /\ (if isRotatedCode (orientation m)
                         then res_hfov r = vfov (computeFov f35mm)
                              /\ res_vfov r = hfov (computeFov f35mm)
                         else res_hfov r = hfov (computeFov f35mm)
                              /\ res_vfov r = vfov (computeFov f35mm))
                     /\ res_dfov r = dfov (computeFov f35mm)).
Proof.
  intros Hfl Hfd Hd.
  assert (Hcorr : closeFocusCorrectionFactor (focalLength m) (focusDistance m) = 1).
  { rewrite Hfl, Hfd; apply closeFocusCorrectionFactor_null_focal_length.
    assumption. }
  split; [assumption | ].
  split.
  - unfold analyze; rewrite Hcorr; reflexivity.
  - intros f35mm Hres; split.
    + revert Hres; unfold getF35mm, f35mmFromFocalPlane; rewrite Hfl; simpl.
      destruct (truthy (focalLengthIn35mm m)); [ | discriminate].
      intros H; injection H as <-; reflexivity.
    + unfold analyze; rewrite Hres, Hcorr, Rmult_1_r.
      eexists; split; [reflexivity | ].
      destruct (isRotatedCode (orientation m)); simpl; auto.
Qed.

Lemma analyze_correction_with_null_focal_length_witness :
  closeFocusCorrectionFactor (focalLength directTagCloseRecord)
                             (focusDistance directTagCloseRecord) = 1
  /\ analyze "img.jpg" directTagCloseRecord true
     = analyze "img.jpg" directTagCloseRecord false.
Proof.
  destruct (analyze_correction_with_null_focal_length
              "img.jpg" directTagCloseRecord 2) as [Hcorr [Hsame _]];
    [reflexivity | reflexivity | lra | ].
  split; assumption.
Defined.

(** * The FOV calculator *)

(** ** Enclosures of pi and of the arctangent

    Both come from alternating series: a partial sum that ends on a negative
    term lies below the limit, one that ends on a positive term above it. *)

Ltac series_to_constants H :=
  cbn [sum_f_R0 Nat.mul Nat.add] in H;
  unfold tg_alt, PI_2_3_7_tg, Ratan_seq in H;
  rewrite !INR_IZR_INZ in H;
  simpl in H.

Lemma atan_series_enclosure (x : R) (N : nat) :
  0 < x < 1 ->
  sum_f_R0 (tg_alt (Ratan_seq x)) (S (2 * N)) <= atan x
  <= sum_f_R0 (tg_alt (Ratan_seq x)) (2 * N).
Proof.
  intros Hx; rewrite atan_eq_ps_atan by assumption; unfold ps_atan.
  destruct (Ratan.in_int x) as [Hin | Hout]; [ | exfalso; apply Hout; lra].
  destruct (ps_atan_exists_1 x Hin) as [limit Hlimit].
  apply alternated_series_ineq;
    [apply Ratan_seq_decreasing | apply Ratan_seq_converging | exact Hlimit];
    lra.
Qed.

Lemma PI_enclosure : 3.14159 <= PI <= 3.1416.
Proof.
  pose proof (PI_2_3_7_ineq 2) as [Hlo Hhi].
  series_to_constants Hlo; series_to_constants Hhi.
  split; [clear Hhi | clear Hlo]; lra.
Qed.

Lemma atan_0_36_enclosure : 0.34555 <= atan 0.36 <= 0.34556.
Proof.
  pose proof (atan_series_enclosure 0.36 2 ltac:(lra)) as [Hlo Hhi].
  series_to_constants Hlo; series_to_constants Hhi.
  split; [clear Hhi | clear Hlo]; lra.
Qed.

Lemma atan_0_24_enclosure : 0.23554 <= atan 0.24 <= 0.23556.
Proof.
  pose proof (atan_series_enclosure 0.24 1 ltac:(lra)) as [Hlo Hhi].
  series_to_constants Hlo; series_to_constants Hhi.
  split; [clear Hhi | clear Hlo]; lra.
Qed.

Lemma atan_0_75_enclosure : 0.64349 <= atan 0.75 <= 0.64352.
Proof.
  pose proof (atan_series_enclosure 0.75 6 ltac:(lra)) as [Hlo Hhi].
  series_to_constants Hlo; series_to_constants Hhi.
  split; [clear Hhi | clear Hlo]; lra.
Qed.

Lemma SENSOR_DIAG_35MM_enclosure : 43.26 < SENSOR_DIAG_35MM < 43.27.
Proof.
  unfold SENSOR_DIAG_35MM, SENSOR_WIDTH_35MM, SENSOR_HEIGHT_35MM.
  replace (36 ^ 2 + 24 ^ 2) with 1872 by (simpl; lra).
  split.
  - rewrite <- (sqrt_square 43.26) by lra.
    apply sqrt_lt_1_alt; lra.
  - rewrite <- (sqrt_square 43.27) by lra.
    apply sqrt_lt_1_alt; lra.
Qed.

Lemma atan_half_diagonal_enclosure :
  0.40828 <= atan (SENSOR_DIAG_35MM / (2 * 50)) <= 0.40839.
Proof.
  pose proof SENSOR_DIAG_35MM_enclosure as [Dlo Dhi].
  pose proof (atan_series_enclosure 0.4326 2 ltac:(lra)) as [Hlo _].
  pose proof (atan_series_enclosure 0.4327 2 ltac:(lra)) as [_ Hhi].
  series_to_constants Hlo; series_to_constants Hhi.
  assert (Alo : atan 0.4326 < atan (SENSOR_DIAG_35MM / (2 * 50)))
    by (apply atan_increasing; lra).
  assert (Ahi : atan (SENSOR_DIAG_35MM / (2 * 50)) < atan 0.4327)
    by (apply atan_increasing; lra).
  split; [clear Hhi Ahi | clear Hlo Alo]; lra.
Qed.

(** From an enclosure of an angle in radians to one of twice the angle in
    degrees. *)
Lemma rad2deg_twice_enclosure (a lo hi : R) :
  lo * PI <= 360 * a -> 360 * a <= hi * PI ->
  lo <= rad2deg (2 * a) <= hi.
Proof.
  intros Hlo Hhi; unfold rad2deg.
  pose proof PI_RGT_0 as Hpi.
  assert (Hinv : 0 <= / PI) by (left; apply Rinv_0_lt_compat; assumption).
  split.
  - replace lo with (lo * PI / PI) by (field; lra).
    unfold Rdiv; apply Rmult_le_compat_r; [assumption | lra].
  - replace hi with (hi * PI / PI) by (field; lra).
    unfold Rdiv; apply Rmult_le_compat_r; [assumption | lra].
Qed.

Lemma hfov_50_enclosure : 39.59 <= hfov (computeFov 50) <= 39.60.
Proof.
  pose proof PI_enclosure as [Plo Phi].
  pose proof atan_0_36_enclosure as [Alo Ahi].
  cbn [computeFov hfov]; unfold SENSOR_WIDTH_35MM.
  replace (36 / (2 * 50)) with 0.36 by lra.
  apply rad2deg_twice_enclosure; lra.
Qed.

Lemma vfov_50_enclosure : 26.99 <= vfov (computeFov 50) <= 27.00.
Proof.
  pose proof PI_enclosure as [Plo Phi].
  pose proof atan_0_24_enclosure as [Alo Ahi].
  cbn [computeFov vfov]; unfold SENSOR_HEIGHT_35MM.
  replace (24 / (2 * 50)) with 0.24 by lra.
  apply rad2deg_twice_enclosure; lra.
Qed.

Lemma dfov_50_enclosure : 46.78 <= dfov (computeFov 50) <= 46.80.
Proof.
  pose proof PI_enclosure as [Plo Phi].
  pose proof atan_half_diagonal_enclosure as [Alo Ahi].
  cbn [computeFov dfov].
  apply rad2deg_twice_enclosure; lra.
Qed.

Lemma hfov_24_enclosure : 73.73 <= hfov (computeFov 24) <= 73.75.
Proof.
  pose proof PI_enclosure as [Plo Phi].
  pose proof atan_0_75_enclosure as [Alo Ahi].
  cbn [computeFov hfov]; unfold SENSOR_WIDTH_35MM.
  replace (36 / (2 * 24)) with 0.75 by lra.
  apply rad2deg_twice_enclosure; lra.
Qed.

(** C8: for every f35mm other than 0 (where the quotient is not a real
    number), [computeFov] returns, in degrees, twice the arctangent of 36, of
    24 and of sqrt (36^2 + 24^2) over [2 * f35mm]; and [computeFov 50] is
    within 0.1 degree of hfov 39.6, vfov 27.0 and dfov 46.8, [computeFov 24]
    within 0.1 degree of hfov 73.74. *)
Theorem computeFov_formula_and_samples :
  (forall f35mm, f35mm <> 0 ->
      hfov (computeFov f35mm) = (2 * atan (36 / (2 * f35mm))) * 180 / PI
      /\ vfov (computeFov f35mm) = (2 * atan (24 / (2 * f35mm))) * 180 / PI
      /\ dfov (computeFov f35mm)
         = (2 * atan (sqrt (36 ^ 2 + 24 ^ 2) / (2 * f35mm))) * 180 / PI)
  /\ Rabs (hfov (computeFov 50) - 39.6) <= 0.1
  /\ Rabs (vfov (computeFov 50) - 27.0) <= 0.1
  /\ Rabs (dfov (computeFov 50) - 46.8) <= 0.1
  /\ Rabs (hfov (computeFov 24) - 73.74) <= 0.1.
Proof.
  split; [intros f35mm _; repeat split | ].
  pose proof hfov_50_enclosure as [? ?].
  pose proof vfov_50_enclosure as [? ?].
  pose proof dfov_50_enclosure as [? ?].
  pose proof hfov_24_enclosure as [? ?].
  repeat split; apply Rabs_le; split; lra.
Qed.

Lemma computeFov_formula_and_samples_witness :
  hfov (computeFov 50) = (2 * atan (36 / (2 * 50))) * 180 / PI.
Proof.
  apply (proj1 computeFov_formula_and_samples 50); lra.
Defined.

(** * End to end

    The sample record of the specification: 6000 x 4000 pixels, focal length
    90 mm, 35 mm equivalent 90 mm.  Its diagonal pixel focal length is
    exactly 15000. *)

Lemma computeDiagonalPixelFocalLength_sample :
  computeDiagonalPixelFocalLength 90 (JNum 6000) (JNum 4000) = 15000.
Proof.
  unfold computeDiagonalPixelFocalLength, SENSOR_DIAG_35MM,
    SENSOR_WIDTH_35MM, SENSOR_HEIGHT_35MM; simpl toNumber.
  replace (36 ^ 2 + 24 ^ 2) with 1872 by (simpl; lra).
  replace (6000 ^ 2 + 4000 ^ 2) with (1872 * ((500 / 3) * (500 / 3)))
    by (simpl; lra).
  rewrite sqrt_mult by lra.
  rewrite (sqrt_square (500 / 3)) by lra.
  assert (0 < sqrt 1872) by (apply sqrt_lt_R0; lra).
  field; lra.
Qed.

Example analyze_sample_fPixelDiagonal :
  outcome_map res_fPixelDiagonal
    (analyze "sample.jpg"
       (withFocalLengthIn35mm (JNum 90) (withFocalLength (JNum 90) bareRecord))
       false)
  = Returned 15000.
Proof.
  rewrite analyze_fPixelDiagonal.
  rewrite getF35mm_truthy_tag by (apply truthy_num; lra).
  simpl; rewrite computeDiagonalPixelFocalLength_sample; reflexivity.
Qed.

(** * More about the resolver *)

(** X1: The focal-plane tags are read only when neither the direct tag nor the
    pair of focal length and scale factor can be used: otherwise replacing
    them by anything leaves the result of [getF35mm] as it is. *)
Theorem getF35mm_ignores_focal_plane_when_resolved
  (m : MetadataRecord) (xres yres unit : value) :
  truthy (focalLengthIn35mm m) = true
  \/ (truthy (focalLength m) = true /\ truthy (scaleFactor35efl m) = true) ->
  getF35mm (withFocalPlane xres yres unit m) = getF35mm m.
Proof.
  intros Hres; unfold getF35mm; cbn [withFocalPlane focalLengthIn35mm
    focalLength scaleFactor35efl].
  destruct (truthy (focalLengthIn35mm m)); [reflexivity | ].
  destruct Hres as [H35 | [Hfl Hsf]]; [discriminate H35 | ].
  rewrite Hfl, Hsf; reflexivity.
Qed.

Lemma getF35mm_ignores_focal_plane_when_resolved_witness :
  getF35mm (withFocalPlane (JNum 250) (JNum 250) (JNum 4) disagreeingRecord)
  = getF35mm disagreeingRecord.
Proof.
  apply (getF35mm_ignores_focal_plane_when_resolved disagreeingRecord).
  left; simpl; decide_reals; reflexivity.
Defined.














(** * More about the orientation adjuster *)

(** X5: Adjusting the adjusted dimensions for the same orientation gives the
    raw dimensions back. *)
Theorem adjustForOrientation_involutive (w h o : value) :
  adjustForOrientation (dim_width (adjustForOrientation w h o))
                       (dim_height (adjustForOrientation w h o)) o
  = mkDims w h.
Proof.
  unfold adjustForOrientation.
  destruct (isRotatedCode o); reflexivity.
Qed.

(** X6: The diagonal pixel focal length is the same computed from the raw
    dimensions and from the dimensions adjusted for any orientation. *)
Theorem computeDiagonalPixelFocalLength_after_adjust
  (f35mm : R) (w h o : value) :
  computeDiagonalPixelFocalLength f35mm
    (dim_width (adjustForOrientation w h o))
    (dim_height (adjustForOrientation w h o))
  = computeDiagonalPixelFocalLength f35mm w h.
Proof.
  unfold adjustForOrientation, computeDiagonalPixelFocalLength.
  destruct (isRotatedCode o); cbn [dim_width dim_height]; [ | reflexivity].
  rewrite (Rplus_comm (toNumber h ^ 2)); reflexivity.
Qed.

(** * More about the FOV calculator *)

Lemma rad2deg_increasing (a b : R) : a < b -> rad2deg a < rad2deg b.
Proof.
  intros Hab; unfold rad2deg, Rdiv.
  apply Rmult_lt_compat_r; [apply Rinv_0_lt_compat, PI_RGT_0 | lra].
Qed.

Lemma half_angle_tangent_decreasing (s f1 f2 : R) :
  0 < s -> 0 < f1 -> f1 < f2 -> s / (2 * f2) < s / (2 * f1).
Proof.
  intros Hs Hf1 Hlt; unfold Rdiv.
  apply Rmult_lt_compat_l; [assumption | ].
  apply Rinv_lt_contravar; [ | lra].
  apply Rmult_lt_0_compat; lra.
Qed.

Lemma fov_angle_decreasing (s f1 f2 : R) :
  0 < s -> 0 < f1 -> f1 < f2 ->
  rad2deg (2 * atan (s / (2 * f2))) < rad2deg (2 * atan (s / (2 * f1))).
Proof.
  intros Hs Hf1 Hlt; apply rad2deg_increasing.
  pose proof (atan_increasing _ _
                (half_angle_tangent_decreasing s f1 f2 Hs Hf1 Hlt)).
  lra.
Qed.

Lemma fov_angle_nonincreasing (s f1 f2 : R) :
  0 < s -> 0 < f1 -> f1 <= f2 ->
  rad2deg (2 * atan (s / (2 * f2))) <= rad2deg (2 * atan (s / (2 * f1))).
Proof.
  intros Hs Hf1 [Hlt | ->]; [ | lra].
  left; apply fov_angle_decreasing; assumption.
Qed.












(** * More about the close-focus corrector *)








(** * More about the pixel focal-length calculator *)






(** * More about the analysis of one image *)

(** X16: Turning the record a quarter (an orientation the source takes as
    rotated instead of one it does not) swaps hfov with vfov and the visual
    width with the visual height, and leaves dfov as it is. *)
Theorem analyze_quarter_turn_swaps
  (file : string) (m : MetadataRecord) (o1 o2 : value) (b : bool)
  (r1 : ResultRecord) :
  isRotatedCode o1 = false -> isRotatedCode o2 = true ->
  analyze file (withOrientation o1 m) b = Returned r1 ->
  exists r2,
    analyze file (withOrientation o2 m) b = Returned r2
    /\ res_hfov r2 = res_vfov r1
    /\ res_vfov r2 = res_hfov r1
    /\ res_dfov r2 = res_dfov r1
    /\ res_visualWidth r1 = width m /\ res_visualHeight r1 = height m
    /\ res_visualWidth r2 = height m /\ res_visualHeight r2 = width m.
Proof.
  intros H1 H2; unfold analyze, adjustForOrientation.
  rewrite !getF35mm_withOrientation.
  cbn [withOrientation orientation width height focalLength focusDistance
       scaleFactor35efl].
  rewrite H1, H2.
  destruct (getF35mm m) as [f35mm | msg]; [ | discriminate].
  intros Hr1; injection Hr1 as <-.
  eexists; split; [reflexivity | ].
  cbn; repeat split; reflexivity.
Qed.

Lemma analyze_quarter_turn_swaps_witness :
  exists r2,
    analyze "a.jpg" (withOrientation (JNum 6) sampleRecord) false = Returned r2
    /\ res_visualWidth r2 = height sampleRecord
    /\ res_visualHeight r2 = width sampleRecord.
Proof.
  destruct (analyze "a.jpg" (withOrientation (JNum 1) sampleRecord) false)
    as [r1 | msg] eqn:Hr1.
  - destruct (analyze_quarter_turn_swaps "a.jpg" sampleRecord (JNum 1) (JNum 6)
                false r1) as [r2 [Hr2 [_ [_ [_ [_ [_ [Hw Hh]]]]]]]].
    + unfold isRotatedCode; js_eval; reflexivity.
    + unfold isRotatedCode; js_eval; reflexivity.
    + exact Hr1.
    + exists r2; repeat split; assumption.
  - exfalso; revert Hr1; unfold analyze.
    rewrite getF35mm_truthy_tag by (simpl; decide_reals; reflexivity).
    discriminate.
Defined.

Lemma analyze_throws_iff_aux
  (file : string) (m : MetadataRecord) (b : bool) (msg : string) :
  analyze file m b = Thrown msg -> msg = resolutionErrorMessage.
Proof.
  unfold analyze; pose proof (getF35mm_thrown_message m) as Hmsg.
  destruct (getF35mm m) as [f35mm | msg']; [discriminate | ].
  intros H; injection H as <-; apply Hmsg; reflexivity.
Qed.

(** X17: [analyze] throws exactly when the resolver has no strategy left, with
    the resolver's message, whatever the orientation, the focus distance
    and the correction option are; it never throws anything else. *)
Theorem analyze_throws_iff
  (file : string) (m : MetadataRecord) (b : bool) (msg : string) :
  analyze file m b = Thrown msg
  <-> specAllStrategiesFail truthy m = true /\ msg = resolutionErrorMessage.
Proof.
  unfold analyze.
  pose proof (getF35mm_throws_iff m) as Hiff.
  pose proof (getF35mm_thrown_message m) as Hmsg.
  destruct (getF35mm m) as [f35mm | msg'].
  - split; [discriminate | intros [Hfail _]].
    apply Hiff in Hfail; destruct Hfail as [x Hx]; discriminate Hx.
  - split.
    + intros H; injection H as <-; split.
      * apply Hiff; exists msg'; reflexivity.
      * apply Hmsg; reflexivity.
    + intros [_ ->]; rewrite (Hmsg msg' eq_refl); reflexivity.
Qed.

Lemma fov_after_correction (s f35mm corr : R) :
  0 < s -> 0 < f35mm -> 1 <= corr ->
  rad2deg (2 * atan (s / (2 * (f35mm * corr))))
  <= rad2deg (2 * atan (s / (2 * (f35mm * 1)))).
Proof.
  intros Hs Hf Hc; apply fov_angle_nonincreasing; [assumption | lra | ].
  apply Rmult_le_compat_l; lra.
Qed.

(** X18: With a focal length that is not negative, enabling the close-focus
    correction never widens the field of view: each angle of the corrected
    result is at most the angle of the uncorrected one, and the diagonal
    pixel focal length is the same. *)
Theorem analyze_correction_never_widens
  (file : string) (m : MetadataRecord) (f35mm : R) (rc ru : ResultRecord) :
  getF35mm m = Returned f35mm -> 0 < f35mm -> nonNegative (focalLength m) ->
  analyze file m true = Returned rc -> analyze file m false = Returned ru ->
  res_hfov rc <= res_hfov ru
  /\ res_vfov rc <= res_vfov ru
  /\ res_dfov rc <= res_dfov ru
  /\ res_fPixelDiagonal rc = res_fPixelDiagonal ru.
Proof.
  intros Hres Hpos Hfl; unfold analyze; rewrite Hres.
  intros Hc Hu; injection Hc as <-; injection Hu as <-.
  pose proof (closeFocusCorrectionFactor_ge_1 _ (focusDistance m) Hfl) as Hge.
  pose proof SENSOR_DIAG_35MM_enclosure as [Hdiag _].
  cbn [res_hfov res_vfov res_dfov res_fPixelDiagonal computeFov hfov vfov dfov].
  destruct (isRotatedCode (orientation m)); cbn [fst snd];
    repeat split; try reflexivity; apply fov_after_correction;
    unfold SENSOR_WIDTH_35MM, SENSOR_HEIGHT_35MM; lra.
Qed.

Lemma analyze_correction_never_widens_witness :
  exists rc ru,
    analyze "a.jpg" sampleCloseRecord true = Returned rc
    /\ analyze "a.jpg" sampleCloseRecord false = Returned ru
    /\ res_dfov rc <= res_dfov ru.
Proof.
  assert (Hres : getF35mm sampleCloseRecord = Returned 90).
  { rewrite getF35mm_truthy_tag by (simpl; decide_reals; reflexivity).
    reflexivity. }
  destruct (analyze "a.jpg" sampleCloseRecord true) as [rc | msg] eqn:Hc;
    [ | exfalso; revert Hc; unfold analyze; rewrite Hres; discriminate].
  destruct (analyze "a.jpg" sampleCloseRecord false) as [ru | msg] eqn:Hu;
    [ | exfalso; revert Hu; unfold analyze; rewrite Hres; discriminate].
  exists rc, ru; repeat split.
  apply (analyze_correction_never_widens "a.jpg" sampleCloseRecord 90 rc ru);
    try assumption; try lra.
  unfold nonNegative; simpl; lra.
Defined.

(** * The metadata reader *)

Lemma extractExif_returned
  (parseFloat : string -> option R) (file : string) (raw : option RawTags)
  (m : MetadataRecord) :
  extractExif parseFloat file raw = Returned m ->
  exists tags,
    raw = Some tags
    /\ truthy (width m) = true /\ truthy (height m) = true
    /\ width m
       = orElse (parseNum parseFloat (ImageWidth tags))
           (orElse (parseNum parseFloat (ExifImageWidth tags))
              (orElse (parseNum parseFloat (PixelXDimension tags)) JNull))
    /\ orientation m = extractOrientation (Orientation tags).
Proof.
  unfold extractExif; destruct raw as [tags | ]; [ | discriminate].
  cbv zeta.
  match goal with
  | |- context [negb (truthy ?w) || negb (truthy ?h)] =>
      destruct (truthy w) eqn:Hw; destruct (truthy h) eqn:Hh
  end; cbn [negb orb]; try discriminate.
  intros H; injection H as <-; exists tags; cbn [width height orientation].
  repeat split; assumption || reflexivity.
Qed.

(** X19: A record delivered by [extractExif] always has a width and a height
    that are numbers other than 0, so the core never sees a missing
    dimension. *)
Theorem extractExif_dimensions_usable
  (parseFloat : string -> option R) (file : string) (raw : option RawTags)
  (m : MetadataRecord) :
  extractExif parseFloat file raw = Returned m ->
  truthy (width m) = true /\ truthy (height m) = true.
Proof.
  intros H; apply extractExif_returned in H.
  destruct H as [tags [_ [Hw [Hh _]]]]; split; assumption.
Qed.

Lemma extractExif_portraitTags :
  extractExif parsesNothing "portrait.jpg" (Some portraitTags)
  = Returned (mkMeta (JNum 6000) (JNum 4000) (JNum 6) JNull (JNum 90)
                     JNull JNull JNull JNull JNull JNull).
Proof. unfold extractExif; js_eval; reflexivity. Qed.

Lemma extractExif_dimensions_usable_witness :
  truthy (JNum 6000) = true /\ truthy (JNum 4000) = true.
Proof.
  apply (extractExif_dimensions_usable parsesNothing "portrait.jpg"
           (Some portraitTags) _ extractExif_portraitTags).
Defined.

(** X20: The width falls back from tag to tag on [null] only, not on 0: when
    [ImageWidth] parses to a number, that number is the width of any record
    delivered, and when it is 0 [extractExif] throws even if
    [ExifImageWidth] or [PixelXDimension] holds a usable width. *)
Theorem extractExif_first_width_decides
  (parseFloat : string -> option R) (file : string) (tags : RawTags) (x : R) :
  parseNum parseFloat (ImageWidth tags) = JNum x ->
  (x = 0 -> extractExif parseFloat file (Some tags) = Thrown noDimensionsMessage)
  /\ (forall m, extractExif parseFloat file (Some tags) = Returned m ->
        width m = JNum x).
Proof.
  intros Hx; split.
  - intros ->; unfold extractExif; cbv zeta; rewrite Hx.
    cbn [orElse]; assert (Hz : truthy (JNum 0) = false)
      by (apply truthy_false_num; reflexivity).
    rewrite Hz; reflexivity.
  - intros m Hm; apply extractExif_returned in Hm.
    destruct Hm as [tags' [Heq [_ [_ [Hw _]]]]].
    injection Heq as <-; rewrite Hw, Hx; reflexivity.
Qed.

Lemma extractExif_first_width_decides_witness :
  extractExif parsesNothing "zero.jpg" (Some zeroWidthTags)
  = Thrown noDimensionsMessage.
Proof.
  apply (proj1 (extractExif_first_width_decides parsesNothing "zero.jpg"
                  zeroWidthTags 0 eq_refl) eq_refl).
Defined.

Lemma isRotatedCode_of_text (text : string) :
  isRotatedCode (extractOrientation (RawOther text))
  = mentions "90" text || mentions "270" text.
Proof.
  unfold extractOrientation.
  destruct (mentions "90" text); [unfold isRotatedCode; js_eval; reflexivity | ].
  destruct (mentions "270" text); [unfold isRotatedCode; js_eval; reflexivity | ].
  destruct (mentions "180" text); unfold isRotatedCode; js_eval; reflexivity.
Qed.

(** X21: A descriptive orientation string is mapped to one of the codes 1, 3, 6
    and 8, and the record delivered counts as rotated by a quarter turn
    exactly when the string contains 90 or 270. *)
Theorem extractExif_orientation_of_text
  (parseFloat : string -> option R) (file : string) (tags : RawTags)
  (text : string) (m : MetadataRecord) :
  Orientation tags = RawOther text ->
  extractExif parseFloat file (Some tags) = Returned m ->
  (orientation m = JNum 1 \/ orientation m = JNum 3
   \/ orientation m = JNum 6 \/ orientation m = JNum 8)
  /\ isRotatedCode (orientation m) = mentions "90" text || mentions "270" text.
Proof.
  intros Htext Hm; apply extractExif_returned in Hm.
  destruct Hm as [tags' [Heq [_ [_ [_ Ho]]]]].
  injection Heq as <-; rewrite Ho, Htext; split.
  - unfold extractOrientation.
    destruct (mentions "90" text); [auto | ].
    destruct (mentions "270" text); [auto | ].
    destruct (mentions "180" text); auto.
  - apply isRotatedCode_of_text.
Qed.

Lemma extractExif_orientation_of_text_witness :
  isRotatedCode (JNum 6) = mentions "90" "Rotate 90 CW" || mentions "270" "Rotate 90 CW".
Proof.
  apply (proj2 (extractExif_orientation_of_text parsesNothing "portrait.jpg"
                  portraitTags "Rotate 90 CW" _ eq_refl
                  extractExif_portraitTags)).
Defined.

(** [mentions] is the substring test of a regular expression made of
    literal characters: some position holds the needle. *)
Lemma mentions_iff_substring (needle text : string) :
  needle <> EmptyString ->
  mentions needle text = true
  <-> exists pos, substring pos (String.length needle) text = needle.
Proof.
  intros Hne; unfold mentions.
  destruct (index 0 needle text) as [pos | ] eqn:Hidx.
  - split; [intros _; exists pos | reflexivity].
    apply (index_correct1 0 pos needle text); assumption.
  - split; [discriminate | intros [pos Hpos]].
    exfalso.
    apply (index_correct3 0 pos needle text Hidx Hne); [lia | assumption].
Qed.

(** * The whole of [analyze] *)



(** X22: Whatever [analyze] throws is the rejection of the ExifTool call or one
    of three fixed messages: no EXIF data, no pixel dimensions, or no way
    to resolve the 35 mm equivalent focal length. *)
Theorem analyzeFile_error_messages
  (parseFloat : string -> option R) (read : string -> outcome (option RawTags))
  (file : string) (b : bool) (msg : string) :
  analyzeFile parseFloat read file b = Thrown msg ->
  read file = Thrown msg
  \/ msg = noExifMessage file
  \/ msg = noDimensionsMessage
  \/ msg = resolutionErrorMessage.
Proof.
  unfold analyzeFile.
  destruct (read file) as [raw | msg0];
    [ | intros H; injection H as <-; left; reflexivity].
  destruct (extractExif parseFloat file raw) as [m | msg1] eqn:Hex.
  - intros H; apply analyze_throws_iff_aux in H; auto.
  - intros H; injection H as <-; right.
    revert Hex; unfold extractExif.
    destruct raw as [tags | ];
      [ | intros H; injection H as <-; left; reflexivity].
    cbv zeta.
    match goal with
    | |- context [if ?c then _ else _] => destruct c
    end; [ | discriminate].
    intros H; injection H as <-; right; left; reflexivity.
Qed.

Lemma analyzeFile_error_messages_witness :
  readsPortrait "missing.jpg" = Thrown "ENOENT"
  \/ "ENOENT"%string = noExifMessage "missing.jpg"
  \/ "ENOENT"%string = noDimensionsMessage
  \/ "ENOENT"%string = resolutionErrorMessage.
Proof.
  apply (analyzeFile_error_messages parsesNothing readsPortrait "missing.jpg"
           false "ENOENT").
  reflexivity.
Defined.




(** * The batch loop *)

Lemma fold_tallyStep (run : string -> outcome ResultRecord)
                     (files : list string) (t : Tally) :
  fold_left (tallyStep run) files t
  = mkTally
      (successes t + List.length (filter (fun f => isReturned (run f)) files))
      (failures t
       + List.length (filter (fun f => negb (isReturned (run f))) files)).
Proof.
  revert t; induction files as [ | file rest IH]; intros t.
  - destruct t; simpl; f_equal; lia.
  - cbn [fold_left filter]; rewrite IH; unfold tallyStep.
    destruct (run file); cbn [isReturned negb successes failures List.length];
      f_equal; lia.
Qed.

(** X24: The batch counts every image file exactly once, whatever the other
    files did: the successes are the files whose analysis returned, the
    failures those whose analysis threw, and the two add up to the number
    of files. *)
Theorem batchTally_counts_each_file
  (run : string -> outcome ResultRecord) (files : list string) :
  successes (batchTally run files)
  = List.length (filter (fun f => isReturned (run f)) files)
  /\ failures (batchTally run files)
     = List.length (filter (fun f => negb (isReturned (run f))) files)
  /\ (successes (batchTally run files) + failures (batchTally run files)
      = List.length files)%nat.
Proof.
  unfold batchTally; rewrite fold_tallyStep; cbn [successes failures].
  repeat split; try reflexivity.
  induction files as [ | file rest IH]; [reflexivity | ].
  cbn [filter]; destruct (isReturned (run file));
    cbn [negb List.length] in *; lia.
Qed.

(** X25: A batch over two lists one after the other tallies what the two
    batches tally separately: a failure in one part changes nothing in the
    other. *)
Theorem batchTally_app
  (run : string -> outcome ResultRecord) (files1 files2 : list string) :
  successes (batchTally run (files1 ++ files2))
  = (successes (batchTally run files1) + successes (batchTally run files2))%nat
  /\ failures (batchTally run (files1 ++ files2))
     = (failures (batchTally run files1) + failures (batchTally run files2))%nat.
Proof.
  unfold batchTally; rewrite !fold_tallyStep; cbn [successes failures].
  rewrite !filter_app, !length_app; split; lia.
Qed.

(** * Labels and shape *)



(** * The resolver over doubles: the sign of the result *)

Lemma notNegative_signFree (x : float) :
  Binary64.notNegative x <-> Binary64.signFree (Prim2SF x).
Proof.
  unfold Binary64.notNegative; rewrite FloatAxioms.ltb_spec.
  change (Prim2SF 0) with (S754_zero false).
  destruct (Prim2SF x) as [s | s | | s m e]; try destruct s;
    unfold SFltb; simpl; split; intros; easy.
Qed.

Lemma truthy_nonZeroNumber (x : float) :
  Binary64.truthy (Binary64.JNum x) = true ->
  Binary64.nonZeroNumber (Prim2SF x).
Proof.
  unfold Binary64.truthy, is_nan; rewrite !FloatAxioms.eqb_spec.
  change (Prim2SF 0) with (S754_zero false).
  destruct (Prim2SF x) as [s | s | | s m e]; simpl; easy.
Qed.

(** Rounding keeps the sign it is given. *)
Lemma binary_round_aux_signFree (mx ex : Z) (lx : location) :
  Binary64.signFree (binary_round_aux prec emax false mx ex lx).
Proof.
  unfold binary_round_aux.
  destruct (shr_fexp prec emax mx ex lx) as [mrs' e'].
  destruct (shr_fexp prec emax _ e' loc_Exact) as [mrs'' e''].
  destruct (shr_m mrs''); simpl; [easy | | easy].
  destruct (Z.leb e'' _); easy.
Qed.

Lemma SF64mul_signFree (a b : spec_float) :
  Binary64.signFree a -> Binary64.signFree b ->
  Binary64.signFree (SF64mul a b).
Proof.
  unfold SF64mul.
  destruct a as [sa | sa | | sa ma ea]; destruct b as [sb | sb | | sb mb eb];
    try destruct sa; try destruct sb; simpl; try easy; intros _ _;
    apply binary_round_aux_signFree.
Qed.

Lemma SF64div_signFree (a b : spec_float) :
  Binary64.signFree a -> Binary64.signFree b -> Binary64.nonZeroNumber b ->
  Binary64.signFree (SF64div a b).
Proof.
  unfold SF64div.
  destruct a as [sa | sa | | sa ma ea]; destruct b as [sb | sb | | sb mb eb];
    try destruct sa; try destruct sb; simpl; try easy; intros _ _ _.
  destruct (SFdiv_core_binary prec emax (Z.pos ma) ea (Z.pos mb) eb)
    as [[mz ez] lz].
  apply binary_round_aux_signFree.
Qed.

Lemma SF64add_signFree (a b : spec_float) :
  Binary64.signFree a -> Binary64.signFree b ->
  Binary64.signFree (SF64add a b).
Proof.
  unfold SF64add.
  destruct a as [sa | sa | | sa ma ea]; destruct b as [sb | sb | | sb mb eb];
    try destruct sa; try destruct sb; simpl; try easy; intros _ _.
  unfold binary_normalize, cond_Zopp, binary_round; simpl Z.add.
  match goal with
  | |- context [shl_align ?a ?b ?c] => destruct (shl_align a b c)
  end.
  apply binary_round_aux_signFree.
Qed.

Lemma mul_notNegative (x y : float) :
  Binary64.notNegative x -> Binary64.notNegative y ->
  Binary64.notNegative (x * y)%float.
Proof.
  intros Hx Hy; apply notNegative_signFree in Hx, Hy.
  apply notNegative_signFree; rewrite FloatAxioms.mul_spec.
  apply SF64mul_signFree; assumption.
Qed.

Lemma add_notNegative (x y : float) :
  Binary64.notNegative x -> Binary64.notNegative y ->
  Binary64.notNegative (x + y)%float.
Proof.
  intros Hx Hy; apply notNegative_signFree in Hx, Hy.
  apply notNegative_signFree; rewrite FloatAxioms.add_spec.
  apply SF64add_signFree; assumption.
Qed.

Lemma div_notNegative (x y : float) :
  Binary64.notNegative x -> Binary64.notNegative y ->
  Binary64.truthy (Binary64.JNum y) = true ->
  Binary64.notNegative (x / y)%float.
Proof.
  intros Hx Hy Ht; apply notNegative_signFree in Hx, Hy.
  apply notNegative_signFree; rewrite FloatAxioms.div_spec.
  apply SF64div_signFree; [assumption | assumption | ].
  apply truthy_nonZeroNumber; assumption.
Qed.

Lemma truthy_is_number (v : Binary64.value) :
  Binary64.truthy v = true ->
  Binary64.truthy (Binary64.JNum (Binary64.toNumber v)) = true.
Proof. destruct v; [discriminate | intros H; exact H]. Qed.

Lemma focalPlaneUnitMul_notNegative (unit : Binary64.value) (mul : float) :
  Binary64.focalPlaneUnitMul unit = Some mul -> Binary64.notNegative mul.
Proof.
  unfold Binary64.focalPlaneUnitMul, Binary64.unit_entry, Binary64.strictEqNum.
  destruct unit as [ | u].
  - intros H; injection H as <-; reflexivity.
  - destruct (u =? 1)%float; [discriminate | ].
    cbn [Binary64.table_get Binary64.FOCAL_PLANE_UNIT_MM].
    repeat match goal with
           | |- context [(u =? ?k)%float] => destruct (u =? k)%float
           end;
      intros H; injection H as <-; reflexivity.
Qed.

Lemma sensor_dimension_notNegative
  (pixels resolution : Binary64.value) (mul : float) :
  Binary64.fieldNotNegative pixels -> Binary64.fieldNotNegative resolution ->
  Binary64.notNegative mul ->
  Binary64.truthy resolution = true ->
  Binary64.notNegative
    ((Binary64.toNumber pixels / Binary64.toNumber resolution) * mul)%float.
Proof.
  intros Hp Hr Hmul Ht; apply mul_notNegative; [ | assumption].
  apply div_notNegative; [assumption | assumption | ].
  apply truthy_is_number; assumption.
Qed.

Lemma crop_factor_notNegative (reference : float) (dimension : Binary64.value) :
  Binary64.notNegative reference -> Binary64.fieldNotNegative dimension ->
  Binary64.truthy dimension = true ->
  Binary64.notNegative (reference / Binary64.toNumber dimension)%float.
Proof.
  intros Href Hd Ht; apply div_notNegative; [assumption | assumption | ].
  apply truthy_is_number; assumption.
Qed.

Lemma cropFactorXY_notNegative
  (sensor : Binary64.SensorDimensions) (cropFactor : float) :
  Binary64.fieldNotNegative (Binary64.sensorWidth sensor) ->
  Binary64.fieldNotNegative (Binary64.sensorHeight sensor) ->
  Binary64.cropFactorXY sensor = Some cropFactor ->
  Binary64.notNegative cropFactor.
Proof.
  intros Hw Hh; unfold Binary64.cropFactorXY, Binary64.cropFactorX.
  assert (H36 : Binary64.notNegative Binary64.SENSOR_WIDTH_35MM) by reflexivity.
  assert (H24 : Binary64.notNegative Binary64.SENSOR_HEIGHT_35MM) by reflexivity.
  destruct (Binary64.truthy (Binary64.sensorWidth sensor)) eqn:Tw;
    destruct (Binary64.truthy (Binary64.sensorHeight sensor)) eqn:Th;
    intros H; try discriminate H; injection H as <-.
  - apply div_notNegative; [ | reflexivity | reflexivity].
    apply add_notNegative; apply crop_factor_notNegative; assumption.
  - apply crop_factor_notNegative; assumption.
  - apply crop_factor_notNegative; assumption.
Qed.

Lemma computeActualSensorDimensions_notNegative
  (m : Binary64.MetadataRecord) (sensor : Binary64.SensorDimensions) :
  Binary64.fieldNotNegative (Binary64.focalPlaneXRes m) ->
  Binary64.fieldNotNegative (Binary64.focalPlaneYRes m) ->
  Binary64.fieldNotNegative (Binary64.width m) ->
  Binary64.fieldNotNegative (Binary64.height m) ->
  Binary64.computeActualSensorDimensions m = Some sensor ->
  Binary64.fieldNotNegative (Binary64.sensorWidth sensor)
  /\ Binary64.fieldNotNegative (Binary64.sensorHeight sensor).
Proof.
  intros Hxr Hyr Hw Hh; unfold Binary64.computeActualSensorDimensions.
  destruct (Binary64.focalPlaneUnitMul (Binary64.focalPlaneUnit m))
    as [mul | ] eqn:Hmul; [ | discriminate].
  apply focalPlaneUnitMul_notNegative in Hmul.
  destruct (Binary64.truthy (Binary64.focalPlaneXRes m)) eqn:Txr;
    destruct (Binary64.truthy (Binary64.width m));
    destruct (Binary64.truthy (Binary64.focalPlaneYRes m)) eqn:Tyr;
    destruct (Binary64.truthy (Binary64.height m));
    cbn [andb Binary64.isNull]; intros H; try discriminate H;
    injection H as <-; cbn [Binary64.sensorWidth Binary64.sensorHeight];
    split; try reflexivity;
    apply sensor_dimension_notNegative; assumption.
Qed.

Lemma getF35mm_negativeTagRecord_double :
  Binary64.getF35mm Binary64.negativeTagRecord = Returned (-50)%float.
Proof. reflexivity. Qed.

Lemma getF35mm_underflowRecord_double :
  Binary64.getF35mm Binary64.underflowRecord = Returned 0%float.
Proof. reflexivity. Qed.

(** C4, as stated, fails, in two ways.  For [negativeTagRecord], whose
    direct tag holds -50, [getF35mm] returns -50, a negative value.  For
    [underflowRecord], whose focal length and scale factor are both the
    positive number 1e-200, the product underflows and [getF35mm] returns
    exactly 0. *)
Lemma getF35mm_returns_negative_or_zero :
  Binary64.getF35mm Binary64.negativeTagRecord = Returned (-50)%float
  /\ (-50 <? 0)%float = true
  /\ Binary64.getF35mm Binary64.underflowRecord = Returned 0%float
  /\ (0 <? Binary64.toNumber (Binary64.focalLength Binary64.underflowRecord))%float
     = true
  /\ (0 <? Binary64.toNumber
             (Binary64.scaleFactor35efl Binary64.underflowRecord))%float
     = true
  /\ (0 <? 0)%float = false.
Proof. repeat split; reflexivity. Qed.

(** C4, amended: for every metadata record whose fields focalLengthIn35mm,
    focalLength, scaleFactor35efl, focalPlaneXRes, focalPlaneYRes, width and
    height are each null or not negative, [getF35mm], computed in doubles,
    either fails or returns a value that is not negative.  (The value can
    be 0, by underflow, as for [underflowRecord].) *)
Theorem getF35mm_never_negative (m : Binary64.MetadataRecord) :
  Binary64.fieldNotNegative (Binary64.focalLengthIn35mm m) ->
  Binary64.fieldNotNegative (Binary64.focalLength m) ->
  Binary64.fieldNotNegative (Binary64.scaleFactor35efl m) ->
  Binary64.fieldNotNegative (Binary64.focalPlaneXRes m) ->
  Binary64.fieldNotNegative (Binary64.focalPlaneYRes m) ->
  Binary64.fieldNotNegative (Binary64.width m) ->
  Binary64.fieldNotNegative (Binary64.height m) ->
  throws (Binary64.getF35mm m)
  \/ exists f35mm,
       Binary64.getF35mm m = Returned f35mm /\ (f35mm <? 0)%float = false.
Proof.
  intros H35 Hfl Hsf Hxr Hyr Hw Hh; unfold Binary64.getF35mm.
  destruct (Binary64.truthy (Binary64.focalLengthIn35mm m)).
  { right; eexists; split; [reflexivity | exact H35]. }
  destruct (Binary64.truthy (Binary64.focalLength m)
            && Binary64.truthy (Binary64.scaleFactor35efl m)).
  { right; eexists; split; [reflexivity | ].
    apply mul_notNegative; assumption. }
  unfold Binary64.f35mmFromFocalPlane.
  destruct (Binary64.truthy (Binary64.focalLength m)); cbn [negb];
    [ | left; eexists; reflexivity].
  destruct (Binary64.computeActualSensorDimensions m) as [sensor | ] eqn:Hs;
    [ | left; eexists; reflexivity].
  destruct (computeActualSensorDimensions_notNegative m sensor Hxr Hyr Hw Hh Hs)
    as [Hsw Hsh].
  destruct (Binary64.cropFactorXY sensor) as [cropFactor | ] eqn:Hc;
    [ | left; eexists; reflexivity].
  right; eexists; split; [reflexivity | ].
  apply mul_notNegative; [assumption | ].
  apply (cropFactorXY_notNegative sensor); assumption.
Qed.

Lemma getF35mm_never_negative_witness :
  throws (Binary64.getF35mm Binary64.focalPlaneRecord)
  \/ exists f35mm,
       Binary64.getF35mm Binary64.focalPlaneRecord = Returned f35mm
       /\ (f35mm <? 0)%float = false.
Proof.
  apply (getF35mm_never_negative Binary64.focalPlaneRecord); reflexivity.
Defined.

(** The double the witness record resolves to. *)
Example getF35mm_focalPlaneRecord_double :
  Binary64.getF35mm Binary64.focalPlaneRecord = Returned 75%float.
Proof. reflexivity. Qed.

(** * The orientation adjuster on every value *)

(** C7, as stated, fails: 6.5 is none of 5, 6, 7 and 8, and yet
    [adjustForOrientation] returns the dimensions 4000 x 3000 swapped for
    the orientation 6.5, because the source tests [5 <= orientation <= 8]. *)
Lemma adjustForOrientation_swaps_at_6_5 :
  adjustForOrientation (JNum 4000) (JNum 3000) (JNum 6.5)
  = mkDims (JNum 3000) (JNum 4000)
  /\ adjustForOrientation (JNum 4000) (JNum 3000) (JNum 6.5)
     <> mkDims (JNum 4000) (JNum 3000)
  /\ 6.5 <> 5 /\ 6.5 <> 6 /\ 6.5 <> 7 /\ 6.5 <> 8.
Proof.
  assert (Hswap : adjustForOrientation (JNum 4000) (JNum 3000) (JNum 6.5)
                  = mkDims (JNum 3000) (JNum 4000)).
  { unfold adjustForOrientation, isRotatedCode; js_compute; reflexivity. }
  split; [exact Hswap | ].
  split; [ | repeat split; lra].
  rewrite Hswap; intros H; injection H; intros; lra.
Qed.

Lemma isRotatedCode_in_range (o : value) :
  5 <= toNumber o <= 8 -> isRotatedCode o = true.
Proof.
  intros [Hlo Hhi]; unfold isRotatedCode.
  apply Rleb_true in Hlo; apply Rleb_true in Hhi; rewrite Hlo, Hhi.
  reflexivity.
Qed.

Lemma isRotatedCode_out_of_range (o : value) :
  toNumber o < 5 \/ 8 < toNumber o -> isRotatedCode o = false.
Proof.
  intros [Hlo | Hhi]; unfold isRotatedCode.
  - apply Rleb_false in Hlo; rewrite Hlo; reflexivity.
  - apply Rleb_false in Hhi; rewrite Hhi; apply andb_false_r.
Qed.

(** C7, amended: for every width, height and orientation value,
    [adjustForOrientation] returns the swapped dimensions exactly when the
    orientation is a number from 5 to 8 (so for the codes 5, 6, 7 and 8, and
    for a number between two of them), and the dimensions unchanged for
    every other value: a number below 5 or above 8, which covers the codes
    1 to 4 and every code outside 1..8, and a missing orientation.  On
    integer codes that is: swapped exactly for 5, 6, 7 and 8.  The function
    is total: it has no failure path. *)
Theorem adjustForOrientation_swaps_exactly_in_range (w h o : value) :
  (5 <= toNumber o <= 8 -> adjustForOrientation w h o = mkDims h w)
  /\ (toNumber o < 5 \/ 8 < toNumber o ->
      adjustForOrientation w h o = mkDims w h)
  /\ (forall code : Z,
        adjustForOrientation w h (orientationCode code)
        = if isQuarterTurnCode code then mkDims h w else mkDims w h)
  /\ adjustForOrientation w h JNull = mkDims w h.
Proof.
  unfold adjustForOrientation; repeat split.
  - intros Hin; rewrite (isRotatedCode_in_range o Hin); reflexivity.
  - intros Hout; rewrite (isRotatedCode_out_of_range o Hout); reflexivity.
  - intros code; rewrite isRotatedCode_orientationCode; reflexivity.
  - rewrite isRotatedCode_out_of_range by (left; simpl; lra); reflexivity.
Qed.

Lemma adjustForOrientation_swaps_exactly_in_range_witness :
  adjustForOrientation (JNum 4000) (JNum 3000) (JNum 6)
  = mkDims (JNum 3000) (JNum 4000)
  /\ adjustForOrientation (JNum 4000) (JNum 3000) (JNum 3)
     = mkDims (JNum 4000) (JNum 3000).
Proof.
  split.
  - apply (proj1 (adjustForOrientation_swaps_exactly_in_range
                    (JNum 4000) (JNum 3000) (JNum 6))); simpl; lra.
  - apply (proj1 (proj2 (adjustForOrientation_swaps_exactly_in_range
                           (JNum 4000) (JNum 3000) (JNum 3)))); simpl; lra.
Defined.
